(** * dfpyre: the template builder of [dfpyre/pyre.py]

    A shallow embedding of [DFTemplate] and [CodeBlock] and of the functions
    [build], [_compress], [_convertDataTypes] and the builder methods,
    followed by the properties of the builder, the assembler and the encoder.

    Conventions.
    - A Python [str] is a [string]; the characters the code inspects (the
      sigil [^]) are ASCII, so a [string] holding the UTF-8 bytes of the text
      behaves like the text under [element[0]] and [element[1:]].
    - A Python exception is a value of [Exn]; a method that can raise returns
      a [result].  A method that mutates [self] takes the template and
      returns the new one.
    - A [dict] whose order of keys is visible (the [data] of a code block,
      the block written to the document, keyword parameters) is an
      association list kept in insertion order; [definedVars] and the schema
      table, which are only looked up, are [gmap]s. *)

From Stdlib Require Import Ascii String ZArith SpecFloat.
From Stdlib.Strings Require Import Byte.
From stdpp Require Import gmap strings list.

#[global] Instance byte_eq_dec : EqDecision byte := Byte.byte_eq_dec.

(** ** Exceptions and results *)

Inductive Exn : Type :=
| KeyError (key : string)
| IndexError
| TypeError.

Inductive result (A : Type) : Type :=
| Ok (a : A)
| Raise (e : Exn).
Arguments Ok {A} a.
Arguments Raise {A} e.

#[global] Instance result_ret : MRet result := @Ok.
#[global] Instance result_bind : MBind result := λ A B f m,
  match m with
  | Ok a => f a
  | Raise e => Raise e
  end.

(** ** Ordered dictionaries *)

Module PyDict.
Section Dict.
Context {V : Type}.

(** [d.get(k)], as an option: the value of the first entry for [k]. *)
Fixpoint get (d : list (string * V)) (k : string) : option V :=
  match d with
  | [] => None
  | (k', v) :: d' => if decide (k' = k) then Some v else get d' k
  end.

(** [d[k]], which raises [KeyError] for a missing key. *)
Definition getitem (d : list (string * V)) (k : string) : result V :=
  match get d k with
  | Some v => Ok v
  | None => Raise (KeyError k)
  end.

(** [d[k] = v]: an existing key keeps its position, a new one goes last. *)
Fixpoint set (d : list (string * V)) (k : string) (v : V) : list (string * V) :=
  match d with
  | [] => [(k, v)]
  | (k', v') :: d' =>
      if decide (k' = k) then (k, v) :: d' else (k', v') :: set d' k v
  end.

(** [d.keys()], in insertion order. *)
Definition keys (d : list (string * V)) : list string := d.*1.
End Dict.
End PyDict.

(** ** Typed values ([dfpyre/items.py]) *)

(** A Python number handed to the builder: an [int] or a [float]. *)
Inductive Number : Type :=
| NInt (z : Z)
| NFloat (f : spec_float).

Inductive Payload : Type :=
| PText (s : string)
| PNum (n : Number)
| PVar (name scope : string)
| POther (repr : string).

(** Modelled from the spec: the typed values of [dfpyre/items.py], which is
    not part of the sources.  A typed value carries a type tag (the attribute
    [type] that [build] tests against [VARIABLE_TYPES]) and a payload that
    depends on the variant. *)
Record TypedValue : Type := mkTypedValue {
  type : string;
  payload : Payload
}.

(** Modelled from the spec: the constructors of [dfpyre/items.py] that
    [pyre.py] calls: [num(value)], [text(value)] and [var(name, scope=...)],
    a number, a text and a variable reference with its scope tag. *)
Definition num (n : Number) : TypedValue := mkTypedValue "num" (PNum n).
Definition text (s : string) : TypedValue := mkTypedValue "txt" (PText s).
Definition var (name scope : string) : TypedValue := mkTypedValue "var" (PVar name scope).

(** An entry of an items list: an argument rendered at a slot, or a tag
    entry taken as it is from the schema file. *)
Inductive Item : Type :=
| Rendered (value : TypedValue) (slot : nat)
| Tag (entry : string).

(** Modelled from the spec: [arg.format(slot)] of [dfpyre/items.py], the
    slot-indexed wire representation of a typed value. *)
Definition format (arg : TypedValue) (slot : nat) : Item := Rendered arg slot.


(** ** Code blocks and templates *)

(** [CodeBlock.__init__(self, name, *args, target='Default', data={})]:
    [args] is the tuple of the positional arguments after [name], so it is
    empty or holds the one tuple of converted arguments a builder method
    passed; the values of [data] are strings or [None]. *)
Record CodeBlock : Type := mkCodeBlock {
  name : string;
  args : list (list TypedValue);
  target : string;
  data : list (string * option string)
}.

Record DFTemplate : Type := mkDFTemplate {
  commands : list CodeBlock;
  closebracket : option string;
  definedVars : gmap string TypedValue
}.

(** [DFTemplate()]: the new template, as [DFTemplate.__init__] sets it up. *)
Definition init : DFTemplate := mkDFTemplate [] None ∅.

(** [DFTemplate.clear]: runs [__init__] again on the same object. *)
Definition clear (self : DFTemplate) : DFTemplate := init.

(** [self.commands.append(cmd)] *)
Definition append_command (self : DFTemplate) (cmd : CodeBlock) : DFTemplate :=
  mkDFTemplate (commands self ++ [cmd]) (closebracket self) (definedVars self).

(** ** Argument conversion *)

(** What a caller may pass in [*args]: an [int] or [float], a [str], or a
    value that is already typed (the last branch of [_convertDataTypes]
    keeps whatever is neither number nor string). *)
Inductive Raw : Type :=
| RNum (n : Number)
| RStr (s : string)
| RVal (v : TypedValue).

(** One turn of the loop of [_convertDataTypes].  [element[0]] raises
    [IndexError] on the empty string; [self.definedVars[...]] raises
    [KeyError] on an unknown name. *)
Definition convert_element (self : DFTemplate) (element : Raw) : result TypedValue :=
  match element with
  | RNum n => Ok (num n)
  | RStr s =>
      match s with
      | EmptyString => Raise IndexError
      | String c rest =>
          if decide (c = "^"%char) then
            match definedVars self !! rest with
            | Some v => Ok v
            | None => Raise (KeyError rest)
            end
          else Ok (text s)
      end
  | RVal v => Ok v
  end.

(** [DFTemplate._convertDataTypes] *)
Fixpoint _convertDataTypes (self : DFTemplate) (lst : list Raw) : result (list TypedValue) :=
  match lst with
  | [] => Ok []
  | element :: lst' =>
      v ← convert_element self element;
      retList ← _convertDataTypes self lst';
      Ok (v :: retList)
  end.

(** ** Builder methods *)

(** [DFTemplate._openbracket] *)
Definition _openbracket (self : DFTemplate) (btype : string) : DFTemplate :=
  let bracket := mkCodeBlock "Bracket" [] "Default"
                   [("id", Some "bracket"); ("direct", Some "open"); ("type", Some btype)] in
  mkDFTemplate (commands self ++ [bracket]) (Some btype) (definedVars self).

Definition playerEvent (self : DFTemplate) (name : string) : DFTemplate :=
  append_command self
    (mkCodeBlock name [] "Default"
       [("id", Some "block"); ("block", Some "event"); ("action", Some name)]).

Definition entityEvent (self : DFTemplate) (name : string) : DFTemplate :=
  append_command self
    (mkCodeBlock name [] "Default"
       [("id", Some "block"); ("block", Some "entity_event"); ("action", Some name)]).

Definition function (self : DFTemplate) (name : string) : DFTemplate :=
  append_command self
    (mkCodeBlock "function" [] "Default"
       [("id", Some "block"); ("block", Some "func"); ("data", Some name)]).

Definition process (self : DFTemplate) (name : string) : DFTemplate :=
  append_command self
    (mkCodeBlock "process" [] "Default"
       [("id", Some "block"); ("block", Some "process"); ("data", Some name)]).

Definition startProcess (self : DFTemplate) (name : string) : DFTemplate :=
  append_command self
    (mkCodeBlock "start_process" [] "Default"
       [("id", Some "block"); ("block", Some "start_process"); ("data", Some name)]).

(** The body shared by the methods that convert [*args] and append one block
    of category [block] with the action [name]. *)
Definition action_block (block name : string) (args : list TypedValue) (target : string)
  : CodeBlock :=
  mkCodeBlock name [args] target
    [("id", Some "block"); ("block", Some block); ("action", Some name)].

Definition playerAction (self : DFTemplate) (name : string) (args : list Raw)
    (target : string) : result DFTemplate :=
  args ← _convertDataTypes self args;
  Ok (append_command self (action_block "player_action" name args target)).

Definition gameAction (self : DFTemplate) (name : string) (args : list Raw)
  : result DFTemplate :=
  args ← _convertDataTypes self args;
  Ok (append_command self (action_block "game_action" name args "Default")).

Definition entityAction (self : DFTemplate) (name : string) (args : list Raw)
  : result DFTemplate :=
  args ← _convertDataTypes self args;
  Ok (append_command self (action_block "entity_action" name args "Default")).

Definition ifPlayer (self : DFTemplate) (name : string) (args : list Raw)
    (target : string) : result DFTemplate :=
  args ← _convertDataTypes self args;
  Ok (_openbracket (append_command self (action_block "if_player" name args target)) "norm").

Definition ifVariable (self : DFTemplate) (name : string) (args : list Raw)
  : result DFTemplate :=
  args ← _convertDataTypes self args;
  Ok (_openbracket (append_command self (action_block "if_var" name args "Default")) "norm").

Definition ifGame (self : DFTemplate) (name : string) (args : list Raw)
  : result DFTemplate :=
  args ← _convertDataTypes self args;
  Ok (_openbracket (append_command self (action_block "if_game" name args "Default")) "norm").

Definition ifEntity (self : DFTemplate) (name : string) (args : list Raw)
  : result DFTemplate :=
  args ← _convertDataTypes self args;
  Ok (_openbracket (append_command self (action_block "if_entity" name args "Default")) "norm").

Definition else_ (self : DFTemplate) : DFTemplate :=
  _openbracket
    (append_command self
       (mkCodeBlock "else" [] "Default" [("id", Some "block"); ("block", Some "else")]))
    "norm".

Definition repeat (self : DFTemplate) (name : string) (args : list Raw)
    (subAction : option string) : result DFTemplate :=
  args ← _convertDataTypes self args;
  let data := [("id", Some "block"); ("block", Some "repeat"); ("action", Some name)] in
  let data := match subAction with
              | Some sub => PyDict.set data "subAction" (Some sub)
              | None => data
              end in
  Ok (_openbracket (append_command self (mkCodeBlock name [args] "Default" data)) "repeat").

(** [DFTemplate.bracket]: the arguments are converted and then unused. *)
Definition bracket (self : DFTemplate) (args : list Raw) : result DFTemplate :=
  args ← _convertDataTypes self args;
  Ok (append_command self
        (mkCodeBlock "Bracket" [] "Default"
           [("id", Some "bracket"); ("direct", Some "close"); ("type", closebracket self)])).

Definition control (self : DFTemplate) (name : string) (args : list Raw)
  : result DFTemplate :=
  args ← _convertDataTypes self args;
  Ok (append_command self (action_block "control" name args "Default")).

Definition selectObject (self : DFTemplate) (name : string) (args : list Raw)
  : result DFTemplate :=
  args ← _convertDataTypes self args;
  Ok (append_command self (action_block "select_obj" name args "Default")).

Definition setVariable (self : DFTemplate) (name : string) (args : list Raw)
  : result DFTemplate :=
  args ← _convertDataTypes self args;
  Ok (append_command self (action_block "set_var" name args "Default")).

(** The loop of [callFunction] and of [return_]: one [setVariable] per key,
    in the order of the keys, reading [parameters[key]]. *)
Fixpoint set_locals (self : DFTemplate) (parameters : list (string * Raw))
    (keys : list string) : result DFTemplate :=
  match keys with
  | [] => Ok self
  | key :: keys' =>
      value ← PyDict.getitem parameters key;
      self' ← setVariable self "=" [RVal (var key "local"); value];
      set_locals self' parameters keys'
  end.

Definition callFunction (self : DFTemplate) (name : string)
    (parameters : list (string * Raw)) : result DFTemplate :=
  self' ← match parameters with
           | [] => Ok self
           | _ :: _ => set_locals self parameters (PyDict.keys parameters)
           end;
  Ok (append_command self'
        (mkCodeBlock "call_func" [] "Default"
           [("id", Some "block"); ("block", Some "call_func"); ("data", Some name)])).

Definition return_ (self : DFTemplate) (returndata : list (string * Raw))
  : result DFTemplate :=
  self' ← set_locals self returndata (PyDict.keys returndata);
  control self' "Return" [].

Definition define_ (self : DFTemplate) (name : string) (value : Raw) (scope : string)
    (createSetVar : bool) : result DFTemplate :=
  self' ← (if createSetVar then setVariable self "=" [RVal (var name scope); value]
           else Ok self);
  Ok (mkDFTemplate (commands self') (closebracket self')
        (<[name := var name scope]> (definedVars self'))).

(** ** Console output *)

(** A computation that prints lines and then returns or raises: the lines
    printed so far, and the outcome. *)
Definition Out (A : Type) : Type := (list string * result A)%type.

#[global] Instance Out_ret : MRet Out := λ A a, ([], Ok a).
#[global] Instance Out_bind : MBind Out := λ A B f m,
  match m with
  | (o, Ok a) => let '(o', r) := f a in (o ++ o', r)
  | (o, Raise e) => (o, Raise e)
  end.

Definition lift {A : Type} (r : result A) : Out A := ([], r).
Definition print (line : string) : Out unit := ([line], Ok tt).

Definition ESC : string := String "027"%char "".
Definition DQUOTE : string := String "034"%char "".

Definition COL_WARN : string := ESC +:+ "[33m".
Definition COL_RESET : string := ESC +:+ "[0m".
Definition COL_SUCCESS : string := ESC +:+ "[32m".
Definition COL_ERROR : string := ESC +:+ "[31m".

Definition _warn (message : string) : Out unit :=
  print (COL_WARN +:+ "! WARNING ! " +:+ message +:+ COL_RESET).

(** ** The document *)

Definition VARIABLE_TYPES : gset string :=
  list_to_set ["txt"; "num"; "item"; "loc"; "var"; "snd"; "part"; "pot"; "g_val"; "vec"].
Definition TEMPLATE_STARTERS : gset string :=
  list_to_set ["event"; "entity_event"; "func"; "process"].

(** A value stored in the dictionary of a block: [None], a string, or the
    dictionary [{'items': [...]}] that [build] stores under ['args']. *)
Inductive Value : Type :=
| VNone
| VStr (s : string)
| VArgs (items : list Item).

Definition of_data (v : option string) : Value :=
  match v with
  | Some s => VStr s
  | None => VNone
  end.

(** One entry of [mainDict['blocks']]. *)
Definition Block : Type := list (string * Value).

(** [block['args']['items']] *)
Definition items_of (block : Block) : result (list Item) :=
  v ← PyDict.getitem block "args";
  match v with
  | VArgs items => Ok items
  | _ => Raise TypeError
  end.

(** [block['args']['items'] = items] *)
Definition set_items (block : Block) (items : list Item) : result Block :=
  v ← PyDict.getitem block "args";
  match v with
  | VArgs _ => Ok (PyDict.set block "args" (VArgs items))
  | _ => Raise TypeError
  end.

(** [for key in cmd.data.keys(): block[key] = cmd.data[key]] *)
Fixpoint copy_keys (data : list (string * option string)) (keys : list string)
    (block : Block) : result Block :=
  match keys with
  | [] => Ok block
  | key :: keys' =>
      v ← PyDict.getitem data key;
      copy_keys data keys' (PyDict.set block key (of_data v))
  end.

(** The loop over [cmd.args[0]]: an argument of a recognized type is
    formatted at the current slot and appended; the slot advances for every
    argument. *)
Fixpoint add_items (args : list TypedValue) (slot : nat) (block : Block) : result Block :=
  match args with
  | [] => Ok block
  | arg :: args' =>
      block' ← (if decide (type arg ∈ VARIABLE_TYPES) then
                  items ← items_of block;
                  set_items block (items ++ [format arg slot])
                else Ok block);
      add_items args' (S slot) block'
  end.

(** [items[:stop]] for a list: a negative [stop] counts from the end. *)
Definition slice_to {A : Type} (items : list A) (stop : Z) : list A :=
  if decide (0 ≤ stop)%Z then take (Z.to_nat stop) items
  else take (Z.to_nat (Z.of_nat (length items) + stop)) items.

(** [d[k]] on a [gmap] *)
Definition lookup_item {V : Type} (d : gmap string V) (k : string) : result V :=
  match d !! k with
  | Some v => Ok v
  | None => Raise (KeyError k)
  end.

(** ** Base64 and the text of a [bytes] object *)

Module Base64.
Definition alphabet : string :=
  "ABCDEFGHIJKLMNOPQRSTUVWXYZabcdefghijklmnopqrstuvwxyz0123456789+/".

(** The character of a 6-bit value. *)
Definition digit (n : N) : ascii :=
  match String.get (N.to_nat n) alphabet with
  | Some c => c
  | None => "="%char
  end.

(** [base64.b64encode]: three bytes give four digits; one or two bytes
    left over give two or three digits and the padding. *)
Fixpoint b64encode (bs : list byte) : list byte :=
  match bs with
  | [] => []
  | [a] =>
      let n := (Byte.to_N a * 65536)%N in
      map byte_of_ascii
        [digit (n / 262144); digit ((n / 4096) mod 64); "="%char; "="%char]
  | [a; b] =>
      let n := (Byte.to_N a * 65536 + Byte.to_N b * 256)%N in
      map byte_of_ascii
        [digit (n / 262144); digit ((n / 4096) mod 64); digit ((n / 64) mod 64); "="%char]
  | a :: b :: c :: rest =>
      let n := (Byte.to_N a * 65536 + Byte.to_N b * 256 + Byte.to_N c)%N in
      map byte_of_ascii
        [digit (n / 262144); digit ((n / 4096) mod 64); digit ((n / 64) mod 64);
         digit (n mod 64)]
      ++ b64encode rest
  end.

(** The 6-bit value of a digit: its position in the alphabet. *)
Fixpoint find_digit (c : ascii) (digits : string) (i : N) : option N :=
  match digits with
  | EmptyString => None
  | String d digits' => if decide (d = c) then Some i else find_digit c digits' (N.succ i)
  end.

Definition value (c : byte) : option N := find_digit (ascii_of_byte c) alphabet 0.

Definition byte_of (n : N) : byte := default "000"%byte (Byte.of_N n).

(** Decoding of padded base64 text: groups of four digits, the last group
    with one or two padding characters when one or two bytes are left. *)
Fixpoint b64decode (cs : list byte) : option (list byte) :=
  match cs with
  | [] => Some []
  | c1 :: c2 :: c3 :: c4 :: rest =>
      v1 ← value c1;
      v2 ← value c2;
      if decide (c4 = "="%byte) then
        match rest with
        | [] =>
            if decide (c3 = "="%byte) then
              let n := (v1 * 262144 + v2 * 4096)%N in
              Some [byte_of (n / 65536)]
            else
              v3 ← value c3;
              let n := (v1 * 262144 + v2 * 4096 + v3 * 64)%N in
              Some [byte_of (n / 65536); byte_of ((n / 256) mod 256)]
        | _ :: _ => None
        end
      else
        v3 ← value c3;
        v4 ← value c4;
        let n := (v1 * 262144 + v2 * 4096 + v3 * 64 + v4)%N in
        tail ← b64decode rest;
        Some (byte_of (n / 65536) :: byte_of ((n / 256) mod 256) :: byte_of (n mod 256) :: tail)
  | _ => None
  end.

(** A character of base64 text: a digit or the padding character. *)
Definition b64char (c : byte) : bool :=
  match value c with
  | Some _ => true
  | None => bool_decide (c = "="%byte)
  end.

(** The check that [value] reads the digit of [n] back as [n], and that the
    digit is not the padding character. *)
Definition digit_ok (n : N) : bool :=
  bool_decide (value (byte_of_ascii (digit n)) = Some n)
  && negb (bool_decide (byte_of_ascii (digit n) = "="%byte)).
End Base64.

(** [str(b)] for a [bytes] object [b], as CPython's [bytes.__repr__] writes
    it: [b'...'], with double quotes when the bytes hold a single quote and
    no double quote, and escapes for the quote, the backslash, tab, newline,
    carriage return and every byte outside the printable ASCII range. *)
Module BytesRepr.
Definition hexdigit (n : N) : ascii :=
  match String.get (N.to_nat n) "0123456789abcdef" with
  | Some c => c
  | None => "0"%char
  end.

Definition escape (quote : ascii) (c : ascii) : string :=
  if decide (c = quote) then String "\"%char (String c "")
  else if decide (c = "\"%char) then String "\"%char (String c "")
  else if decide (c = "009"%char) then "\t"
  else if decide (c = "010"%char) then "\n"
  else if decide (c = "013"%char) then "\r"
  else if decide (N_of_ascii c < 32)%N then
    String "\"%char (String "x"%char
      (String (hexdigit (N_of_ascii c / 16)) (String (hexdigit (N_of_ascii c mod 16)) "")))
  else if decide (127 ≤ N_of_ascii c)%N then
    String "\"%char (String "x"%char
      (String (hexdigit (N_of_ascii c / 16)) (String (hexdigit (N_of_ascii c mod 16)) "")))
  else String c "".

Fixpoint body (quote : ascii) (bs : list byte) : string :=
  match bs with
  | [] => ""
  | b :: bs' => escape quote (ascii_of_byte b) +:+ body quote bs'
  end.

Definition quote_of (bs : list byte) : ascii :=
  if decide (byte_of_ascii "'"%char ∈ bs) then
    if decide (byte_of_ascii "034"%char ∈ bs) then "'"%char else "034"%char
  else "'"%char.

Definition repr (bs : list byte) : string :=
  let quote := quote_of bs in
  String "b"%char (String quote (body quote bs +:+ String quote "")).
End BytesRepr.

(** [s[2:-1]] for a string: without its first two characters and its last
    one; empty when the string has fewer than four characters. *)
Definition slice_2_m1 (s : string) : string :=
  String.substring 2 (String.length s - 3) s.

(** The document [build] assembles: [{'blocks': [...]}]. *)
Record Document : Type := mkDocument { blocks : list Block }.

(** ** The schema file *)

(** [_loadCodeblockData]: with the file [dfpyre/data/data.json] present, the
    table read from it, its keys and the keys of its ['extras'] entry (a
    [KeyError] when there is none); without the file, a warning and empty
    tables. *)
Definition _loadCodeblockData (file : option (gmap string (gmap string (list Item))))
  : Out (gmap string (gmap string (list Item)) * gset string * gset string) :=
  match file with
  | Some tagData =>
      extras ← lift (lookup_item tagData "extras");
      mret (tagData, dom tagData, dom extras)
  | None =>
      _warn "data.json not found -- Item tags and error checking will not work.";;
      mret (∅, ∅, ∅)
  end.

(** ** Assembling and encoding *)

Section Build.
(** The tables [_loadCodeblockData] returns when the module is loaded. *)
Variable TAGDATA : gmap string (gmap string (list Item)).
Variables TAGDATA_KEYS TAGDATA_EXTRAS_KEYS : gset string.

(** [difflib.get_close_matches] *)
Variable get_close_matches : string → list string → list string.

(** [str(mainDict)], the text Python writes for the document, and
    [gzip.compress]. *)
Variable str_document : Document → string.
Variable gzip_compress : list byte → list byte.

(** The tags of a block (lines 126-137 of [build]). *)
Definition lookup_tags (cmd : CodeBlock) : Out (option (list Item)) :=
  match mjoin (PyDict.get (data cmd) "block") with
  | None => mret None
  | Some blockType =>
      if decide (blockType ∈ TAGDATA_EXTRAS_KEYS) then
        extras ← lift (lookup_item TAGDATA "extras");
        tags ← lift (lookup_item extras blockType);
        mret (Some tags)
      else if decide (blockType ∈ TAGDATA_KEYS) then
        table ← lift (lookup_item TAGDATA blockType);
        match table !! name cmd with
        | Some tags => mret (Some tags)
        | None =>
            match get_close_matches (name cmd) (elements (dom table)) with
            | close0 :: _ =>
                _warn ("Code block name " +:+ DQUOTE +:+ name cmd +:+ DQUOTE
                       +:+ " not recognized. Did you mean " +:+ DQUOTE +:+ close0
                       +:+ DQUOTE +:+ "?");;
                mret None
            | [] =>
                _warn ("Code block name " +:+ DQUOTE +:+ name cmd +:+ DQUOTE
                       +:+ " not recognized. Try spell checking or re-typing without spaces.");;
                mret None
            end
        end
      else mret None
  end.

(** Lines 138-142 of [build]: the tags go to the end of the items, after
    the items were cut when there are more than 27 of them. *)
Definition attach_tags (block : Block) (tags : option (list Item)) : result Block :=
  match tags with
  | None => Ok block
  | Some tags =>
      items ← items_of block;
      block ← (if decide (27 < length items) then
                 set_items block (slice_to items (26 - Z.of_nat (length tags)))
               else Ok block);
      items ← items_of block;
      set_items block (items ++ tags)
  end.

(** Lines 103-106 of [build]: the bracket data. *)
Definition copy_bracket_data (cmd : CodeBlock) (block : Block) : result Block :=
  match mjoin (PyDict.get (data cmd) "direct") with
  | Some _ =>
      direct ← PyDict.getitem (data cmd) "direct";
      let block := PyDict.set block "direct" (of_data direct) in
      type ← PyDict.getitem (data cmd) "type";
      Ok (PyDict.set block "type" (of_data type))
  | None => Ok block
  end.

(** Lines 108-111 of [build]: the target, when the block is no event and
    the target is not the default one. *)
Definition add_target (cmd : CodeBlock) (block : Block) : Block :=
  if decide (mjoin (PyDict.get (data cmd) "block") = Some "event") then block
  else if decide (target cmd = "Default") then block
  else PyDict.set block "target" (VStr (target cmd)).

(** Lines 114-123 of [build]: the items of the arguments. *)
Definition add_args (cmd : CodeBlock) (block : Block) : result Block :=
  match args cmd with
  | [] => Ok block
  | args0 :: _ => add_items args0 0 block
  end.

(** The body of the loop of [build] over [self.commands]. *)
Definition assemble_block (cmd : CodeBlock) : Out Block :=
  let block : Block := [("args", VArgs [])] in
  block ← lift (copy_keys (data cmd) (PyDict.keys (data cmd)) block);
  block ← lift (copy_bracket_data cmd block);
  let block := add_target cmd block in
  block ← lift (add_args cmd block);
  tags ← lookup_tags cmd;
  lift (attach_tags block tags).

(** The items list of the block assembled for a command:
    [block['args']['items']] at the end of the loop body. *)
Definition block_items (cmd : CodeBlock) : Out (list Item) :=
  block ← assemble_block cmd;
  lift (items_of block).

Fixpoint assemble_blocks (cmds : list CodeBlock) : Out (list Block) :=
  match cmds with
  | [] => mret []
  | cmd :: cmds' =>
      block ← assemble_block cmd;
      blocks ← assemble_blocks cmds';
      mret (block :: blocks)
  end.

(** [DFTemplate._compress] *)
Definition _compress (jsonString : string) : string :=
  let compressedString := gzip_compress (String.list_byte_of_string jsonString) in
  slice_2_m1 (BytesRepr.repr (Base64.b64encode compressedString)).

(** Lines 148-155 of [build]: the name of the template. *)
Definition template_name (mainDict : Document) : Out Value :=
  block0 ← lift (match blocks mainDict with
                 | [] => Raise IndexError
                 | block0 :: _ => Ok block0
                 end);
  category ← lift (PyDict.getitem block0 "block");
  starter ← lift (match category with
                  | VStr s => Ok (bool_decide (s ∈ TEMPLATE_STARTERS))
                  | VNone => Ok false
                  | VArgs _ => Raise TypeError
                  end);
  if negb starter then
    _warn "Template does not start with an event, function, or process.";;
    mret (VStr "Unnamed")
  else
    match PyDict.get block0 "action" with
    | Some action =>
        match category, action with
        | VStr c, VStr a => mret (VStr (c +:+ "_" +:+ a))
        | _, _ => lift (Raise TypeError)
        end
    | None => lift (PyDict.getitem block0 "data")
    end.

(** [DFTemplate.build] *)
Definition build (self : DFTemplate) : Out (string * Value) :=
  blocks ← assemble_blocks (commands self);
  let mainDict := mkDocument blocks in
  print (COL_SUCCESS +:+ "Template built successfully." +:+ COL_RESET);;
  templateName ← template_name mainDict;
  mret (_compress (str_document mainDict), templateName).
End Build.

(** ** Scripts: sequences of calls on one template *)

Inductive Call : Type :=
| CPlayerEvent (name : string)
| CEntityEvent (name : string)
| CFunction (name : string)
| CProcess (name : string)
| CCallFunction (name : string) (parameters : list (string * Raw))
| CStartProcess (name : string)
| CPlayerAction (name : string) (args : list Raw) (target : string)
| CGameAction (name : string) (args : list Raw)
| CEntityAction (name : string) (args : list Raw)
| CIfPlayer (name : string) (args : list Raw) (target : string)
| CIfVariable (name : string) (args : list Raw)
| CIfGame (name : string) (args : list Raw)
| CIfEntity (name : string) (args : list Raw)
| CElse
| CRepeat (name : string) (args : list Raw) (subAction : option string)
| CBracket (args : list Raw)
| CControl (name : string) (args : list Raw)
| CSelectObject (name : string) (args : list Raw)
| CSetVariable (name : string) (args : list Raw)
| CReturn (returndata : list (string * Raw))
| CDefine (name : string) (value : Raw) (scope : string) (createSetVar : bool)
| CClear.

(** One call of a method of [DFTemplate]. *)
Definition exec (self : DFTemplate) (c : Call) : result DFTemplate :=
  match c with
  | CPlayerEvent name => Ok (playerEvent self name)
  | CEntityEvent name => Ok (entityEvent self name)
  | CFunction name => Ok (function self name)
  | CProcess name => Ok (process self name)
  | CCallFunction name parameters => callFunction self name parameters
  | CStartProcess name => Ok (startProcess self name)
  | CPlayerAction name args target => playerAction self name args target
  | CGameAction name args => gameAction self name args
  | CEntityAction name args => entityAction self name args
  | CIfPlayer name args target => ifPlayer self name args target
  | CIfVariable name args => ifVariable self name args
  | CIfGame name args => ifGame self name args
  | CIfEntity name args => ifEntity self name args
  | CElse => Ok (else_ self)
  | CRepeat name args subAction => repeat self name args subAction
  | CBracket args => bracket self args
  | CControl name args => control self name args
  | CSelectObject name args => selectObject self name args
  | CSetVariable name args => setVariable self name args
  | CReturn returndata => return_ self returndata
  | CDefine name value scope createSetVar => define_ self name value scope createSetVar
  | CClear => Ok (clear self)
  end.

(** A script: the calls in order; an exception ends it. *)
Fixpoint run (self : DFTemplate) (calls : list Call) : result DFTemplate :=
  match calls with
  | [] => Ok self
  | c :: calls' => self' ← exec self c; run self' calls'
  end.

(** ** Notions of the specification *)

(** The flavor of the bracket a method opens: "normal" for the conditionals
    and [else], "repeating" for [repeat]; no flavor for the other methods. *)
Definition opened_flavor (c : Call) : option string :=
  match c with
  | CIfPlayer _ _ _ | CIfVariable _ _ | CIfGame _ _ | CIfEntity _ _ | CElse => Some "norm"
  | CRepeat _ _ _ => Some "repeat"
  | _ => None
  end.

(** The closing bracket block of a given flavor ([None]: no valid flavor). *)
Definition closing_bracket (flavor : option string) : CodeBlock :=
  mkCodeBlock "Bracket" [] "Default"
    [("id", Some "bracket"); ("direct", Some "close"); ("type", flavor)].

(** The bracket state after a call, by the transitions the code has: an
    opener enters bracket-open, [clear] returns to no-open-bracket, every
    other call (bracket-close too) keeps the state. *)
Definition bracket_step (state : option string) (c : Call) : option string :=
  match opened_flavor c, c with
  | Some flavor, _ => Some flavor
  | None, CClear => None
  | None, _ => state
  end.

(** The variable reference bound to [name] after a call, given the binding
    before it: [define_] binds the name, [clear] forgets every name. *)
Definition binding_step (name : string) (bound : option TypedValue) (c : Call)
  : option TypedValue :=
  match c with
  | CDefine name' _ scope _ => if decide (name' = name) then Some (var name' scope) else bound
  | CClear => None
  | _ => bound
  end.

(** The binding of [name] at the end of a script that starts on a new
    template: what the last [define_] of [name] since the last [clear]
    stored, if there is one. *)
Definition binding (name : string) (calls : list Call) : option TypedValue :=
  foldl (binding_step name) None calls.

(** The back-reference to [name], as a caller writes it. *)
Definition backref (name : string) : Raw := RStr (String "^"%char name).

(** The set-variable block that assigns [value] to the local variable
    [key]. *)
Definition local_assignment (key : string) (value : TypedValue) : CodeBlock :=
  mkCodeBlock "=" [[var key "local"; value]] "Default"
    [("id", Some "block"); ("block", Some "set_var"); ("action", Some "=")].

(** The block [define_("x", 5)] appends: the initial assignment to the
    variable [x] of scope "unsaved". *)
Definition initial_assignment_x : CodeBlock :=
  mkCodeBlock "=" [[var "x" "unsaved"; num (NInt 5)]] "Default"
    [("id", Some "block"); ("block", Some "set_var"); ("action", Some "=")].

(** The call-function block of the function [name]. *)
Definition call_block (name : string) : CodeBlock :=
  mkCodeBlock "call_func" [] "Default"
    [("id", Some "block"); ("block", Some "call_func"); ("data", Some name)].

(** The items an argument list renders to: the arguments of a recognized
    type, each at the slot of its position. *)
Fixpoint render (args : list TypedValue) (slot : nat) : list Item :=
  match args with
  | [] => []
  | arg :: args' =>
      (if decide (type arg ∈ VARIABLE_TYPES) then [format arg slot] else [])
      ++ render args' (S slot)
  end.

(** The rendered argument items of a command, before any tag. *)
Definition own_items (cmd : CodeBlock) : list Item :=
  match args cmd with
  | [] => []
  | args0 :: _ => render args0 0
  end.

(** The items list once the tags are attached (lines 138-142 of [build]):
    unchanged without tags; with tags, cut when longer than 27 and then
    followed by the tags. *)
Definition with_tags (items : list Item) (tags : option (list Item)) : list Item :=
  match tags with
  | None => items
  | Some tags =>
      (if decide (27 < length items) then slice_to items (26 - Z.of_nat (length tags))
       else items) ++ tags
  end.

(** The commands the builder methods create carry no ['args'] key in their
    data, a ['type'] key whenever they carry a ['direct'] key, and, when
    their category is an entry point, an action string or else no action
    and a data entry. *)
Definition builder_made (cmd : CodeBlock) : Prop :=
  PyDict.get (data cmd) "args" = None ∧
  (is_Some (PyDict.get (data cmd) "direct") → is_Some (PyDict.get (data cmd) "type")) ∧
  (∀ category,
     mjoin (PyDict.get (data cmd) "block") = Some category →
     category ∈ TEMPLATE_STARTERS →
     (∃ action, PyDict.get (data cmd) "action" = Some (Some action)) ∨
     (PyDict.get (data cmd) "action" = None ∧ is_Some (PyDict.get (data cmd) "data"))).

(** A schema file with one tag for the player action [SendMessage], the
    matcher that finds no close match, and [n] text arguments. *)
Definition example_file : gmap string (gmap string (list Item)) :=
  <["extras" := ∅]> (<["player_action" := <["SendMessage" := [Tag "tag"]]> ∅]> ∅).

Definition no_close_matches (word : string) (possibilities : list string) : list string := [].

Definition send_message (n : nat) : CodeBlock :=
  action_block "player_action" "SendMessage" (replicate n (text "a")) "Default".

(** ** Decoding an encoded template *)

Section Decode.
(** A parser of the text of a document, and [gzip.decompress]. *)
Variable parse_document : string → option Document.
Variable gzip_decompress : list byte → option (list byte).

(** Base64-decode, decompress, parse. *)
Definition decode (templateCode : string) : option Document :=
  compressed ← Base64.b64decode (String.list_byte_of_string templateCode);
  raw ← gzip_decompress compressed;
  parse_document (String.string_of_list_byte raw).
End Decode.

(** ** An example of a printer with its parser *)

(** Documents can be numbered, so there are printers of documents that a
    parser inverts: the one below writes the number of the document in
    binary digits. *)
#[global] Instance spec_float_eq_dec : EqDecision spec_float.
Proof. solve_decision. Defined.

#[global] Instance spec_float_countable : Countable spec_float.
Proof.
  refine (inj_countable'
            (λ f, match f with
                  | S754_zero s => inl s
                  | S754_infinity s => inr (inl s)
                  | S754_nan => inr (inr (inl ()))
                  | S754_finite s m e => inr (inr (inr (s, m, e)))
                  end)
            (λ x, match x with
                  | inl s => S754_zero s
                  | inr (inl s) => S754_infinity s
                  | inr (inr (inl _)) => S754_nan
                  | inr (inr (inr (s, m, e))) => S754_finite s m e
                  end) _).
  by intros [].
Qed.

#[global] Instance Number_eq_dec : EqDecision Number.
Proof. solve_decision. Defined.

#[global] Instance Number_countable : Countable Number.
Proof.
  refine (inj_countable'
            (λ n, match n with NInt z => inl z | NFloat f => inr f end)
            (λ x, match x with inl z => NInt z | inr f => NFloat f end) _).
  by intros [].
Qed.

#[global] Instance Payload_eq_dec : EqDecision Payload.
Proof. solve_decision. Defined.

#[global] Instance Payload_countable : Countable Payload.
Proof.
  refine (inj_countable'
            (λ p, match p with
                  | PText s => inl s
                  | PNum n => inr (inl n)
                  | PVar name scope => inr (inr (inl (name, scope)))
                  | POther repr => inr (inr (inr repr))
                  end)
            (λ x, match x with
                  | inl s => PText s
                  | inr (inl n) => PNum n
                  | inr (inr (inl (name, scope))) => PVar name scope
                  | inr (inr (inr repr)) => POther repr
                  end) _).
  by intros [].
Qed.

#[global] Instance TypedValue_eq_dec : EqDecision TypedValue.
Proof. solve_decision. Defined.

#[global] Instance TypedValue_countable : Countable TypedValue.
Proof.
  refine (inj_countable' (λ v, (type v, payload v)) (λ x, mkTypedValue x.1 x.2) _).
  by intros [].
Qed.

#[global] Instance Item_eq_dec : EqDecision Item.
Proof. solve_decision. Defined.

#[global] Instance Item_countable : Countable Item.
Proof.
  refine (inj_countable'
            (λ i, match i with Rendered v slot => inl (v, slot) | Tag entry => inr entry end)
            (λ x, match x with inl (v, slot) => Rendered v slot | inr entry => Tag entry end) _).
  by intros [].
Qed.

#[global] Instance Value_eq_dec : EqDecision Value.
Proof. solve_decision. Defined.

#[global] Instance Value_countable : Countable Value.
Proof.
  refine (inj_countable'
            (λ v, match v with
                  | VNone => inl ()
                  | VStr s => inr (inl s)
                  | VArgs items => inr (inr items)
                  end)
            (λ x, match x with
                  | inl _ => VNone
                  | inr (inl s) => VStr s
                  | inr (inr items) => VArgs items
                  end) _).
  by intros [].
Qed.

#[global] Instance Document_eq_dec : EqDecision Document.
Proof. solve_decision. Defined.

#[global] Instance Document_countable : Countable Document.
Proof.
  refine (inj_countable' blocks mkDocument _).
  by intros [].
Qed.

Fixpoint bits_of_positive (p : positive) : string :=
  match p with
  | xH => ""
  | xO p' => String "0" (bits_of_positive p')
  | xI p' => String "1" (bits_of_positive p')
  end.

Fixpoint positive_of_bits (s : string) : option positive :=
  match s with
  | EmptyString => Some xH
  | String c s' =>
      p ← positive_of_bits s';
      if decide (c = "0"%char) then Some (xO p)
      else if decide (c = "1"%char) then Some (xI p)
      else None
  end.

Definition example_str (d : Document) : string := bits_of_positive (countable.encode d).

Definition example_parse (s : string) : option Document :=
  p ← positive_of_bits s; countable.decode p.

(** Calls that change what a back-reference to [name] means: [define_] of
    that name and [clear]. *)
Definition defines (name : string) (c : Call) : bool :=
  match c with
  | CDefine name' _ _ _ => bool_decide (name' = name)
  | _ => false
  end.

Definition rebinds (name : string) (c : Call) : bool :=
  match c with
  | CClear => true
  | _ => defines name c
  end.

(** ** Further notions *)

(** The opening bracket block of a flavor, as [_openbracket] creates it. *)
Definition opening_bracket (flavor : string) : CodeBlock :=
  mkCodeBlock "Bracket" [] "Default"
    [("id", Some "bracket"); ("direct", Some "open"); ("type", Some flavor)].

(** The loop of [callFunction] and [return_] once more, keeping the template
    as the loop leaves it: [setVariable] converts its arguments before it
    appends, so a turn that raises leaves the template of the turn before,
    with the exception that ended the loop. *)
Fixpoint set_locals_upto (self : DFTemplate) (parameters : list (string * Raw))
    (keys : list string) : DFTemplate * option Exn :=
  match keys with
  | [] => (self, None)
  | key :: keys' =>
      match PyDict.getitem parameters key with
      | Raise e => (self, Some e)
      | Ok value =>
          match setVariable self "=" [RVal (var key "local"); value] with
          | Raise e => (self, Some e)
          | Ok self' => set_locals_upto self' parameters keys'
          end
      end
  end.

(** [callFunction], with the template it leaves behind when it raises. *)
Definition callFunction_upto (self : DFTemplate) (name : string)
    (parameters : list (string * Raw)) : DFTemplate * option Exn :=
  match match parameters with
        | [] => (self, None)
        | _ :: _ => set_locals_upto self parameters (PyDict.keys parameters)
        end with
  | (self', Some e) => (self', Some e)
  | (self', None) => (append_command self' (call_block name), None)
  end.

(** The data of the commands the builder methods create: each key once, and
    neither ['args'] nor ['target'] among them. *)
Definition plain_data (cmd : CodeBlock) : Prop :=
  NoDup (PyDict.keys (data cmd)) ∧
  ("args" ∉ PyDict.keys (data cmd)) ∧
  ("target" ∉ PyDict.keys (data cmd)) ∧
  (is_Some (PyDict.get (data cmd) "direct") → is_Some (PyDict.get (data cmd) "type")).

(** The target entry of a block: none for an event and none for the default
    target. *)
Definition target_entry (cmd : CodeBlock) : Block :=
  if decide (mjoin (PyDict.get (data cmd) "block") = Some "event") then []
  else if decide (target cmd = "Default") then []
  else [("target", VStr (target cmd))].

(** The block of a command with given tags, entry by entry: the items, the
    entries of the data in their order, the target. *)
Definition block_of (cmd : CodeBlock) (tags : option (list Item)) : Block :=
  ("args", VArgs (with_tags (own_items cmd) tags))
  :: (prod_map id of_data <$> data cmd) ++ target_entry cmd.

(** The two notices of [build]. *)
Definition success_notice : string :=
  COL_SUCCESS +:+ "Template built successfully." +:+ COL_RESET.

Definition starter_warning : string :=
  COL_WARN +:+ "! WARNING ! "
  +:+ "Template does not start with an event, function, or process." +:+ COL_RESET.

(** A schema file with an ['extras'] entry for the category [else] and a
    table of player actions. *)
Definition example_extras_file : gmap string (gmap string (list Item)) :=
  <["extras" := <["else" := [Tag "else-tag"]]> ∅]>
    (<["player_action" := <["SendMessage" := [Tag "tag"]]> ∅]> ∅).

(** A schema file with 27 tags for the player action [SendMessage]. *)
Definition many_tags_file : gmap string (gmap string (list Item)) :=
  <["extras" := ∅]>
    (<["player_action" := <["SendMessage" := replicate 27 (Tag "tag")]> ∅]> ∅).

(** The arguments a call passes through [_convertDataTypes] as they are,
    for the methods with variadic arguments. *)
Definition variadic_args (c : Call) : option (list Raw) :=
  match c with
  | CPlayerAction _ args _ | CGameAction _ args | CEntityAction _ args
  | CIfPlayer _ args _ | CIfVariable _ args | CIfGame _ args | CIfEntity _ args
  | CRepeat _ args _ | CBracket args | CControl _ args | CSelectObject _ args
  | CSetVariable _ args => Some args
  | _ => None
  end.

(** The calls that hand no value to the conversion. *)
Definition takes_no_values (c : Call) : bool :=
  match c with
  | CPlayerEvent _ | CEntityEvent _ | CFunction _ | CProcess _ | CStartProcess _
  | CElse | CClear => true
  | _ => false
  end.


(** * Properties *)

(** ** The result monad *)

Lemma bind_Ok {A B : Type} (m : result A) (f : A → result B) (b : B) :
  m ≫= f = Ok b ↔ ∃ a, m = Ok a ∧ f a = Ok b.
Proof.
  destruct m as [a|e]; simpl.
  - split; [eauto | intros (a' & [= ->] & ?); done].
  - split; [done | intros (a' & ? & ?); done].
Qed.

Ltac inv_bind H :=
  let a := fresh "a" in
  let Ha := fresh "Ha" in
  apply bind_Ok in H as (a & Ha & H).

(** ** Argument conversion *)

Lemma convert_element_same_vars (t t' : DFTemplate) (element : Raw) :
  definedVars t = definedVars t' → convert_element t element = convert_element t' element.
Proof.
  intros Hvars. destruct element as [n|s|v]; simpl; try done.
  destruct s as [|c rest]; [done|]. by rewrite Hvars.
Qed.

Lemma convert_same_vars (t t' : DFTemplate) (lst : list Raw) :
  definedVars t = definedVars t' → _convertDataTypes t lst = _convertDataTypes t' lst.
Proof.
  intros Hvars. induction lst as [|element lst IH]; simpl; [done|].
  by rewrite (convert_element_same_vars t t' element Hvars), IH.
Qed.

Lemma convert_app (t : DFTemplate) (pre post : list Raw) :
  _convertDataTypes t (pre ++ post) =
  (pre' ← _convertDataTypes t pre; post' ← _convertDataTypes t post; Ok (pre' ++ post')).
Proof.
  induction pre as [|element pre IH]; simpl.
  - by destruct (_convertDataTypes t post).
  - destruct (convert_element t element) as [v|e]; simpl; [|done].
    rewrite IH. destruct (_convertDataTypes t pre) as [pre'|e]; simpl; [|done].
    by destruct (_convertDataTypes t post).
Qed.

Lemma convert_cons (t : DFTemplate) (element : Raw) (lst : list Raw) :
  _convertDataTypes t (element :: lst) =
  (v ← convert_element t element; retList ← _convertDataTypes t lst; Ok (v :: retList)).
Proof. reflexivity. Qed.

Lemma convert_backref (t : DFTemplate) (name : string) :
  convert_element t (backref name) =
  match definedVars t !! name with
  | Some v => Ok v
  | None => Raise (KeyError name)
  end.
Proof. reflexivity. Qed.

(** The rules of the conversion that hold as the documentation states them:
    a number becomes a number value, a string that starts with another
    character than the sigil becomes a text value, a typed value is kept. *)
Lemma convert_element_rules (t : DFTemplate) :
  (∀ n, convert_element t (RNum n) = Ok (num n)) ∧
  (∀ c rest, c ≠ "^"%char → convert_element t (RStr (String c rest)) = Ok (text (String c rest))) ∧
  (∀ v, convert_element t (RVal v) = Ok v).
Proof.
  repeat split; try done.
  intros c rest Hc. simpl. by destruct (decide (c = "^"%char)).
Qed.

Lemma convert_typed_values (t : DFTemplate) (values : list TypedValue) :
  _convertDataTypes t (RVal <$> values) = Ok values.
Proof.
  induction values as [|v values IH]; [done|].
  rewrite fmap_cons, convert_cons, IH. done.
Qed.

(** ** What a call changes besides the commands *)

Lemma set_locals_frame (t t' : DFTemplate) (parameters : list (string * Raw))
    (keys : list string) :
  set_locals t parameters keys = Ok t' →
  closebracket t' = closebracket t ∧ definedVars t' = definedVars t.
Proof.
  revert t. induction keys as [|key keys IH]; simpl; intros t H.
  - by injection H as <-.
  - inv_bind H. unfold setVariable in H. inv_bind H. inv_bind Ha0.
    injection Ha0 as <-. apply IH in H as [-> ->]. done.
Qed.

Lemma exec_closebracket (t t' : DFTemplate) (c : Call) :
  exec t c = Ok t' → closebracket t' = bracket_step (closebracket t) c.
Proof.
  destruct c; simpl; intros H;
    try (injection H as <-; done);
    try (inv_bind H; injection H as <-; done).
  - unfold callFunction in H. inv_bind H. injection H as <-. simpl.
    destruct parameters; [by injection Ha as <-|].
    by apply set_locals_frame in Ha as [-> _].
  - unfold return_ in H. inv_bind H. unfold control in H. inv_bind H.
    injection H as <-. simpl. by apply set_locals_frame in Ha as [-> _].
  - unfold define_ in H. inv_bind H. injection H as <-. simpl.
    destruct createSetVar; [|by injection Ha as <-].
    unfold setVariable in Ha. inv_bind Ha. by injection Ha as <-.
Qed.

Lemma exec_definedVars (t t' : DFTemplate) (c : Call) (name : string) :
  exec t c = Ok t' →
  definedVars t' !! name = binding_step name (definedVars t !! name) c.
Proof.
  destruct c; simpl; intros H;
    try (injection H as <-; done);
    try (inv_bind H; injection H as <-; done).
  - unfold callFunction in H. inv_bind H. injection H as <-. simpl.
    destruct parameters; [by injection Ha as <-|].
    by apply set_locals_frame in Ha as [_ ->].
  - unfold return_ in H. inv_bind H. unfold control in H. inv_bind H.
    injection H as <-. simpl. by apply set_locals_frame in Ha as [_ ->].
  - unfold define_ in H. inv_bind H. injection H as <-. simpl.
    assert (definedVars a = definedVars t) as ->.
    { destruct createSetVar; [|by injection Ha as <-].
      unfold setVariable in Ha. inv_bind Ha. by injection Ha as <-. }
    destruct (decide (name0 = name)) as [->|Hne].
    + by rewrite lookup_insert_eq.
    + by rewrite lookup_insert_ne.
Qed.

Lemma run_app (t : DFTemplate) (calls calls' : list Call) :
  run t (calls ++ calls') = (t' ← run t calls; run t' calls').
Proof.
  revert t. induction calls as [|c calls IH]; simpl; intros t; [done|].
  destruct (exec t c) as [t1|e]; simpl; [apply IH | done].
Qed.

Lemma run_closebracket (t t' : DFTemplate) (calls : list Call) :
  run t calls = Ok t' → closebracket t' = foldl bracket_step (closebracket t) calls.
Proof.
  revert t. induction calls as [|c calls IH]; simpl; intros t H.
  - by injection H as <-.
  - inv_bind H. apply IH in H as ->. by rewrite (exec_closebracket _ _ _ Ha).
Qed.

Lemma run_definedVars (t t' : DFTemplate) (calls : list Call) (name : string) :
  run t calls = Ok t' →
  definedVars t' !! name = foldl (binding_step name) (definedVars t !! name) calls.
Proof.
  revert t. induction calls as [|c calls IH]; simpl; intros t H.
  - by injection H as <-.
  - inv_bind H. apply IH in H as ->. by rewrite (exec_definedVars _ _ _ _ Ha).
Qed.

(** ** The bracket discipline *)

Lemma foldl_bracket_step_no_opener (calls : list Call) :
  Forall (λ c, opened_flavor c = None) calls → foldl bracket_step None calls = None.
Proof.
  induction 1 as [|c calls Hc _ IH]; simpl; [done|].
  replace (bracket_step None c) with (@None string); [done|].
  unfold bracket_step. rewrite Hc. by destruct c.
Qed.

(** C10.  On a new template, or on one that was cleared, as long as no
    method that opens a bracket has been called since, [bracket()] raises
    nothing: the commands of the template afterwards are the commands before
    followed by one closing bracket block whose ['type'] is [None]; the
    bracket state stays [None] and the defined names are unchanged. *)
Theorem bracket_before_any_opener (self t : DFTemplate) (calls : list Call) :
  run (clear self) calls = Ok t →
  Forall (λ c, opened_flavor c = None) calls →
  bracket t [] =
    Ok (mkDFTemplate
          (commands t
             ++ [mkCodeBlock "Bracket" [] "Default"
                   [("id", Some "bracket"); ("direct", Some "close"); ("type", None)]])
          None (definedVars t)).
Proof.
  intros Hrun Hcalls.
  apply run_closebracket in Hrun. simpl in Hrun.
  rewrite (foldl_bracket_step_no_opener calls Hcalls) in Hrun.
  unfold bracket, append_command. simpl. by rewrite Hrun.
Qed.

Lemma bracket_before_any_opener_witness :
  bracket (playerEvent init "Join") [] =
    Ok (mkDFTemplate
          (commands (playerEvent init "Join")
             ++ [mkCodeBlock "Bracket" [] "Default"
                   [("id", Some "bracket"); ("direct", Some "close"); ("type", None)]])
          None (definedVars (playerEvent init "Join"))).
Proof.
  apply (bracket_before_any_opener init (playerEvent init "Join") [CPlayerEvent "Join"]).
  - reflexivity.
  - repeat constructor.
Defined.

(** C4.  After a call of a method that opens a bracket ([ifPlayer],
    [ifVariable], [ifGame], [ifEntity] and [else_] with the flavor "norm",
    [repeat] with the flavor "repeat"), the last command of the template is
    the opening bracket of that flavor, and the next [bracket()] returns the
    template with one more command at the end, the closing bracket block
    whose ['type'] is that flavor; whatever arguments the caller passes to
    [bracket], a call that returns has appended that block and no other. *)
Theorem bracket_closes_last_opened (self t1 : DFTemplate) (c : Call) (flavor : string) :
  opened_flavor c = Some flavor →
  exec self c = Ok t1 →
  last (commands t1) =
    Some (mkCodeBlock "Bracket" [] "Default"
            [("id", Some "bracket"); ("direct", Some "open"); ("type", Some flavor)]) ∧
  bracket t1 [] =
    Ok (mkDFTemplate
          (commands t1
             ++ [mkCodeBlock "Bracket" [] "Default"
                   [("id", Some "bracket"); ("direct", Some "close"); ("type", Some flavor)]])
          (Some flavor) (definedVars t1)) ∧
  ∀ args t2,
    bracket t1 args = Ok t2 →
    commands t2 =
      commands t1
        ++ [mkCodeBlock "Bracket" [] "Default"
              [("id", Some "bracket"); ("direct", Some "close"); ("type", Some flavor)]] ∧
    closebracket t2 = Some flavor ∧
    definedVars t2 = definedVars t1.
Proof.
  intros Hflavor Hexec.
  assert (last (commands t1) =
            Some (mkCodeBlock "Bracket" [] "Default"
                    [("id", Some "bracket"); ("direct", Some "open"); ("type", Some flavor)]))
    as Hlast.
  { destruct c; simpl in Hflavor; try done; injection Hflavor as <-; simpl in Hexec;
      try (inv_bind Hexec); injection Hexec as <-; simpl; by rewrite last_snoc. }
  apply exec_closebracket in Hexec. unfold bracket_step in Hexec.
  rewrite Hflavor in Hexec.
  split; [done|]. split.
  - unfold bracket, append_command. simpl. by rewrite Hexec.
  - intros args t2 H. unfold bracket in H. inv_bind H. injection H as <-.
    simpl. by rewrite Hexec.
Qed.

Lemma bracket_closes_last_opened_witness :
  bracket (else_ init) [] =
    Ok (mkDFTemplate
          (commands (else_ init)
             ++ [mkCodeBlock "Bracket" [] "Default"
                   [("id", Some "bracket"); ("direct", Some "close"); ("type", Some "norm")]])
          (Some "norm") (definedVars (else_ init))) ∧
  bracket (_openbracket
             (append_command init (action_block "repeat" "Forever" [] "Default")) "repeat") []
  = Ok (mkDFTemplate
          (commands
             (_openbracket
                (append_command init (action_block "repeat" "Forever" [] "Default")) "repeat")
             ++ [mkCodeBlock "Bracket" [] "Default"
                   [("id", Some "bracket"); ("direct", Some "close");
                    ("type", Some "repeat")]])
          (Some "repeat")
          (definedVars
             (_openbracket
                (append_command init (action_block "repeat" "Forever" [] "Default"))
                "repeat"))).
Proof.
  split.
  - exact (proj1 (proj2 (bracket_closes_last_opened init (else_ init) CElse "norm"
                           eq_refl eq_refl))).
  - exact (proj1 (proj2 (bracket_closes_last_opened init
                           (_openbracket
                              (append_command init
                                 (action_block "repeat" "Forever" [] "Default")) "repeat")
                           (CRepeat "Forever" [] None) "repeat" eq_refl eq_refl))).
Defined.

(** C9, as the specification states it, fails: after [else_] opened a
    bracket and [bracket()] closed it, the bracket state of the template is
    still bracket-open("norm"), not no-open-bracket. *)
Lemma bracket_close_keeps_state :
  closebracket (else_ init) = Some "norm" ∧
  bracket (else_ init) [] =
    Ok (mkDFTemplate
          [mkCodeBlock "else" [] "Default" [("id", Some "block"); ("block", Some "else")];
           mkCodeBlock "Bracket" [] "Default"
             [("id", Some "bracket"); ("direct", Some "open"); ("type", Some "norm")];
           mkCodeBlock "Bracket" [] "Default"
             [("id", Some "bracket"); ("direct", Some "close"); ("type", Some "norm")]]
          (Some "norm") ∅) ∧
  Some "norm" ≠ @None string.
Proof. repeat split; done. Qed.

(** C9, amended.  A method that opens a bracket leaves the template in
    bracket-open(flavor), whatever state it was in; [bracket] appends the
    closing block of the current state and keeps the state; [clear] returns
    to no-open-bracket; every other method keeps the state. *)
Theorem bracket_state_transitions (self t : DFTemplate) (c : Call) :
  exec self c = Ok t →
  (∀ flavor, opened_flavor c = Some flavor → closebracket t = Some flavor) ∧
  (∀ args, c = CBracket args →
           closebracket t = closebracket self ∧
           commands t = commands self ++ [closing_bracket (closebracket self)]) ∧
  (c = CClear → closebracket t = None) ∧
  (opened_flavor c = None → c ≠ CClear → closebracket t = closebracket self).
Proof.
  intros Hexec. pose proof (exec_closebracket _ _ _ Hexec) as Hstate.
  unfold bracket_step in Hstate. split; [|split; [|split]].
  - intros flavor Hflavor. by rewrite Hflavor in Hstate.
  - intros args ->. split; [done|].
    simpl in Hexec. unfold bracket in Hexec. inv_bind Hexec.
    by injection Hexec as <-.
  - by intros ->.
  - intros Hflavor Hclear. rewrite Hflavor in Hstate. by destruct c.
Qed.

Lemma bracket_state_transitions_witness :
  (∀ flavor, opened_flavor (CBracket []) = Some flavor →
             closebracket (append_command (else_ init) (closing_bracket (Some "norm")))
             = Some flavor) ∧
  (∀ args, CBracket [] = CBracket args →
           closebracket (append_command (else_ init) (closing_bracket (Some "norm")))
           = closebracket (else_ init) ∧
           commands (append_command (else_ init) (closing_bracket (Some "norm")))
           = commands (else_ init) ++ [closing_bracket (closebracket (else_ init))]) ∧
  (CBracket [] = CClear →
   closebracket (append_command (else_ init) (closing_bracket (Some "norm"))) = None) ∧
  (opened_flavor (CBracket []) = None → CBracket [] ≠ CClear →
   closebracket (append_command (else_ init) (closing_bracket (Some "norm")))
   = closebracket (else_ init)).
Proof.
  apply (bracket_state_transitions (else_ init) _ (CBracket [])). reflexivity.
Defined.

(** ** Back-references *)

Lemma foldl_binding_kept (name : string) (bound : option TypedValue) (calls : list Call) :
  Forall (λ c, rebinds name c = false) calls →
  foldl (binding_step name) bound calls = bound.
Proof.
  induction 1 as [|c calls Hc _ IH]; simpl; [done|].
  replace (binding_step name bound c) with bound; [done|].
  destruct c; simpl in *; try done.
  apply bool_decide_eq_false in Hc. by destruct (decide (name0 = name)).
Qed.

Lemma foldl_binding_undefined (name : string) (calls : list Call) :
  Forall (λ c, defines name c = false) calls →
  foldl (binding_step name) None calls = None.
Proof.
  induction 1 as [|c calls Hc _ IH]; simpl; [done|].
  replace (binding_step name None c) with (@None TypedValue); [done|].
  destruct c; simpl in *; try done.
  apply bool_decide_eq_false in Hc. by destruct (decide (name0 = name)).
Qed.

Lemma binding_of_script (t : DFTemplate) (calls : list Call) (name : string) :
  run init calls = Ok t → definedVars t !! name = binding name calls.
Proof. intros H. by rewrite (run_definedVars _ _ _ name H). Qed.

(** C3.  When the script that produced the template called [define_] for
    [name] (and did not clear the template or define the name again
    afterwards), a back-reference [^name] among the arguments converts to
    the variable reference that [define_] stored, [var(name, scope)]; when
    the script never defined [name], converting the back-reference raises
    [KeyError(name)] and no argument list is produced. *)
Theorem backref_resolution (name : string) (t : DFTemplate) :
  (∀ before value scope createSetVar after,
     run init (before ++ CDefine name value scope createSetVar :: after) = Ok t →
     Forall (λ c, rebinds name c = false) after →
     definedVars t !! name = Some (var name scope) ∧
     convert_element t (backref name) = Ok (var name scope) ∧
     ∀ pre post pre' post',
       _convertDataTypes t pre = Ok pre' →
       _convertDataTypes t post = Ok post' →
       _convertDataTypes t (pre ++ backref name :: post) = Ok (pre' ++ var name scope :: post')) ∧
  (∀ calls,
     run init calls = Ok t →
     Forall (λ c, defines name c = false) calls →
     convert_element t (backref name) = Raise (KeyError name) ∧
     ∀ pre post pre',
       _convertDataTypes t pre = Ok pre' →
       _convertDataTypes t (pre ++ backref name :: post) = Raise (KeyError name)).
Proof.
  split.
  - intros before value scope createSetVar after Hrun Hafter.
    assert (definedVars t !! name = Some (var name scope)) as Hbound.
    { rewrite (binding_of_script _ _ name Hrun). unfold binding.
      rewrite foldl_app. simpl. rewrite decide_True by done.
      by apply foldl_binding_kept. }
    split; [done|]. split; [by rewrite convert_backref, Hbound|].
    intros pre post pre' post' Hpre Hpost.
    by rewrite convert_app, Hpre, convert_cons, convert_backref, Hbound, Hpost.
  - intros calls Hrun Hcalls.
    assert (definedVars t !! name = None) as Hunbound.
    { rewrite (binding_of_script _ _ name Hrun). by apply foldl_binding_undefined. }
    split; [by rewrite convert_backref, Hunbound|].
    intros pre post pre' Hpre.
    by rewrite convert_app, Hpre, convert_cons, convert_backref, Hunbound.
Qed.

Lemma backref_resolution_witness :
  _convertDataTypes
    (mkDFTemplate [initial_assignment_x] None (<["x" := var "x" "unsaved"]> ∅))
    ([RNum (NInt 1)] ++ backref "x" :: [RStr "a"])
  = Ok ([num (NInt 1)] ++ var "x" "unsaved" :: [text "a"]) ∧
  _convertDataTypes init ([] ++ backref "x" :: []) = Raise (KeyError "x").
Proof.
  split.
  - apply (proj1 (backref_resolution "x" _) [] (RNum (NInt 5)) "unsaved" true []);
      [reflexivity | constructor | reflexivity | reflexivity].
  - refine (proj2 (proj2 (backref_resolution "x" init) [] _ _) [] [] [] _);
      [reflexivity | constructor | reflexivity].
Defined.

(** ** The empty string *)

(** C6 (defect).  The empty string is a raw string that does not start with
    the sigil, yet it is not converted to a text value: [element[0]] raises
    [IndexError], wherever the string stands among the arguments and
    whichever method receives them. *)
Theorem empty_string_argument_raises (t : DFTemplate) :
  convert_element t (RStr "") = Raise IndexError ∧
  _convertDataTypes t [RStr ""] = Raise IndexError ∧
  playerAction t "SendMessage" [RStr ""] "Default" = Raise IndexError ∧
  setVariable t "=" [RVal (var "x" "unsaved"); RStr ""] = Raise IndexError.
Proof. repeat split. Qed.

(** ** Calling a function with parameters *)

Lemma get_of_entry {V : Type} (d : list (string * V)) (k : string) (v : V) :
  NoDup (PyDict.keys d) → (k, v) ∈ d → PyDict.get d k = Some v.
Proof.
  unfold PyDict.keys. induction d as [|[k' v'] d IH]; simpl; intros Hnodup Hin.
  - by apply elem_of_nil in Hin.
  - apply NoDup_cons in Hnodup as [Hk' Hnodup].
    apply elem_of_cons in Hin as [[= <- <-]|Hin].
    + by rewrite decide_True.
    + rewrite decide_False; [by apply IH|].
      intros ->. apply Hk'. apply list_elem_of_fmap. by exists (k, v).
Qed.

Lemma set_locals_spec (t : DFTemplate) (parameters : list (string * Raw))
    (entries : list (string * Raw)) (values : list TypedValue) :
  (∀ k raw, (k, raw) ∈ entries → PyDict.get parameters k = Some raw) →
  _convertDataTypes t entries.*2 = Ok values →
  set_locals t parameters entries.*1 =
    Ok (mkDFTemplate (commands t ++ zip_with local_assignment entries.*1 values)
          (closebracket t) (definedVars t)).
Proof.
  revert t values. induction entries as [|[key raw] entries IH]; intros t values Hget Hconv.
  - injection Hconv as <-. simpl. rewrite app_nil_r. by destruct t.
  - rewrite fmap_cons, convert_cons in Hconv. simpl in Hconv.
    inv_bind Hconv. inv_bind Hconv. injection Hconv as <-.
    rewrite fmap_cons. simpl. unfold PyDict.getitem.
    rewrite (Hget key raw) by apply list_elem_of_here. simpl.
    unfold setVariable. rewrite !convert_cons. simpl. rewrite Ha. simpl.
    rewrite (IH _ a0).
    + simpl. by rewrite <- app_assoc.
    + intros k r Hin. apply Hget. by apply list_elem_of_further.
    + rewrite <- Ha0. by apply convert_same_vars.
Qed.

(** C8.  [callFunction] with parameters (a dictionary, so with distinct
    keys) whose values convert appends, for each parameter in the order of
    the call, the set-variable block that assigns the converted value to
    the local variable of the parameter's name, and after them the one
    call-function block of the function; nothing else of the template
    changes. *)
Theorem callFunction_binds_parameters (t : DFTemplate) (name : string)
    (parameters : list (string * Raw)) (values : list TypedValue) :
  NoDup (PyDict.keys parameters) →
  _convertDataTypes t parameters.*2 = Ok values →
  callFunction t name parameters =
    Ok (mkDFTemplate
          (commands t ++ zip_with local_assignment (PyDict.keys parameters) values
             ++ [call_block name])
          (closebracket t) (definedVars t)).
Proof.
  intros Hnodup Hconv. unfold callFunction.
  destruct parameters as [|p parameters'] eqn:Hp.
  - injection Hconv as <-. simpl. by destruct t.
  - rewrite <- Hp in *. unfold PyDict.keys in *.
    rewrite (set_locals_spec t parameters parameters values); [by rewrite app_assoc| |done].
    intros k raw Hin. by apply get_of_entry.
Qed.

Lemma callFunction_binds_parameters_witness :
  callFunction (playerEvent init "Join") "add" [("a", RNum (NInt 1)); ("b", RStr "two")] =
    Ok (mkDFTemplate
          [mkCodeBlock "Join" [] "Default"
             [("id", Some "block"); ("block", Some "event"); ("action", Some "Join")];
           local_assignment "a" (num (NInt 1));
           local_assignment "b" (text "two");
           call_block "add"]
          None ∅).
Proof.
  apply (callFunction_binds_parameters (playerEvent init "Join") "add"
           [("a", RNum (NInt 1)); ("b", RStr "two")] [num (NInt 1); text "two"]).
  - apply (bool_decide_unpack _). vm_compute. exact I.
  - reflexivity.
Defined.

(** A parameter whose value does not convert makes [callFunction] raise the
    exception of the conversion. *)
Lemma set_locals_raises (t : DFTemplate) (parameters : list (string * Raw))
    (entries : list (string * Raw)) (e : Exn) :
  (∀ k raw, (k, raw) ∈ entries → PyDict.get parameters k = Some raw) →
  _convertDataTypes t entries.*2 = Raise e →
  set_locals t parameters entries.*1 = Raise e.
Proof.
  revert t. induction entries as [|[key raw] entries IH]; intros t Hget Hconv; [done|].
  rewrite fmap_cons, convert_cons in Hconv. rewrite fmap_cons. simpl in *.
  unfold PyDict.getitem. rewrite (Hget key raw) by apply list_elem_of_here. simpl.
  unfold setVariable. rewrite !convert_cons. simpl.
  destruct (convert_element t raw) as [v|e']; simpl in *.
  2: { by injection Hconv as ->. }
  apply IH.
  - intros k r Hin. apply Hget. by apply list_elem_of_further.
  - destruct (_convertDataTypes t entries.*2) as [vs|e'] eqn:Hrest; [done|].
    by rewrite <- (convert_same_vars t), Hrest.
Qed.

Lemma callFunction_raises (t : DFTemplate) (name : string)
    (parameters : list (string * Raw)) (e : Exn) :
  NoDup (PyDict.keys parameters) →
  _convertDataTypes t parameters.*2 = Raise e →
  callFunction t name parameters = Raise e.
Proof.
  intros Hnodup Hconv. unfold callFunction.
  destruct parameters as [|p parameters'] eqn:Hp; [done|].
  rewrite <- Hp in *. unfold PyDict.keys in *.
  rewrite (set_locals_raises t parameters parameters e); [done| |done].
  intros k raw Hin. by apply get_of_entry.
Qed.

(** ** Dictionaries *)

Lemma get_set_eq {V : Type} (d : list (string * V)) (k : string) (v : V) :
  PyDict.get (PyDict.set d k v) k = Some v.
Proof.
  induction d as [|[k' v'] d IH]; simpl.
  - by rewrite decide_True.
  - destruct (decide (k' = k)) as [->|Hne]; simpl.
    + by rewrite decide_True.
    + by rewrite decide_False.
Qed.

Lemma get_set_ne {V : Type} (d : list (string * V)) (k k' : string) (v : V) :
  k ≠ k' → PyDict.get (PyDict.set d k v) k' = PyDict.get d k'.
Proof.
  intros Hne. induction d as [|[k0 v0] d IH]; simpl.
  - by rewrite decide_False.
  - destruct (decide (k0 = k)) as [->|Hne0]; simpl.
    + by rewrite !decide_False.
    + by rewrite IH.
Qed.

Lemma get_key {V : Type} (d : list (string * V)) (k : string) :
  k ∈ PyDict.keys d ↔ is_Some (PyDict.get d k).
Proof.
  unfold PyDict.keys. induction d as [|[k' v'] d IH]; simpl.
  - rewrite elem_of_nil. split; [done | by intros [? ?]].
  - rewrite elem_of_cons. destruct (decide (k' = k)) as [->|Hne].
    + split; eauto.
    + rewrite IH. split; [intros [?|?]; [congruence | done] | eauto].
Qed.

(** ** The items of an assembled block *)

Lemma items_of_args (block : Block) (items : list Item) :
  PyDict.get block "args" = Some (VArgs items) → items_of block = Ok items.
Proof. intros H. unfold items_of, PyDict.getitem. by rewrite H. Qed.

Lemma set_items_args (block : Block) (items items' : list Item) :
  PyDict.get block "args" = Some (VArgs items) →
  set_items block items' = Ok (PyDict.set block "args" (VArgs items')).
Proof. intros H. unfold set_items, PyDict.getitem. by rewrite H. Qed.

Lemma copy_keys_args (data : list (string * option string)) (keys : list string)
    (block : Block) :
  (∀ k, k ∈ keys → is_Some (PyDict.get data k)) →
  "args" ∉ keys →
  ∃ block', copy_keys data keys block = Ok block' ∧
            PyDict.get block' "args" = PyDict.get block "args".
Proof.
  revert block. induction keys as [|key keys IH]; simpl; intros block Hdata Hargs.
  - eauto.
  - destruct (Hdata key) as [v Hv]; [apply list_elem_of_here|].
    unfold PyDict.getitem. rewrite Hv. simpl.
    destruct (IH (PyDict.set block key (of_data v))) as (block' & -> & Hget).
    + intros k Hk. apply Hdata. by apply list_elem_of_further.
    + intros Hin. apply Hargs. by apply list_elem_of_further.
    + exists block'. split; [done|]. rewrite Hget. apply get_set_ne.
      intros ->. apply Hargs. apply list_elem_of_here.
Qed.

Lemma add_items_args (args : list TypedValue) (slot : nat) (block : Block)
    (items : list Item) :
  PyDict.get block "args" = Some (VArgs items) →
  ∃ block', add_items args slot block = Ok block' ∧
            PyDict.get block' "args" = Some (VArgs (items ++ render args slot)).
Proof.
  revert slot block items. induction args as [|arg args IH]; simpl; intros slot block items H.
  - exists block. by rewrite app_nil_r.
  - destruct (decide (type arg ∈ VARIABLE_TYPES)); simpl.
    + rewrite (items_of_args _ _ H). simpl. rewrite (set_items_args _ _ _ H). simpl.
      destruct (IH (S slot) (PyDict.set block "args" (VArgs (items ++ [format arg slot])))
                  (items ++ [format arg slot])) as (block' & -> & Hget).
      { apply get_set_eq. }
      exists block'. split; [done|]. by rewrite Hget, <- app_assoc.
    + apply IH. done.
Qed.

Lemma copy_bracket_data_args (cmd : CodeBlock) (block : Block) :
  (is_Some (PyDict.get (data cmd) "direct") → is_Some (PyDict.get (data cmd) "type")) →
  ∃ block', copy_bracket_data cmd block = Ok block' ∧
            PyDict.get block' "args" = PyDict.get block "args".
Proof.
  intros Htype. unfold copy_bracket_data.
  destruct (PyDict.get (data cmd) "direct") as [direct|] eqn:Hdirect; simpl; [|eauto].
  destruct direct as [direct|]; simpl; [|eauto].
  destruct Htype as [type Htype]; [done|].
  unfold PyDict.getitem. rewrite Hdirect, Htype. simpl.
  eexists. split; [done|]. by rewrite !get_set_ne.
Qed.

Lemma add_target_args (cmd : CodeBlock) (block : Block) :
  PyDict.get (add_target cmd block) "args" = PyDict.get block "args".
Proof. unfold add_target. repeat case_decide; try done. by rewrite get_set_ne. Qed.

Lemma add_args_args (cmd : CodeBlock) (block : Block) :
  PyDict.get block "args" = Some (VArgs []) →
  ∃ block', add_args cmd block = Ok block' ∧
            PyDict.get block' "args" = Some (VArgs (own_items cmd)).
Proof.
  intros H. unfold add_args, own_items. destruct (args cmd) as [|args0 ?]; [eauto|].
  by apply (add_items_args args0 0 block []).
Qed.

(** The items list after the tags were attached (lines 138-142). *)
Lemma attach_tags_args (block : Block) (items : list Item) (tags : option (list Item)) :
  PyDict.get block "args" = Some (VArgs items) →
  ∃ block', attach_tags block tags = Ok block' ∧
            PyDict.get block' "args" = Some (VArgs (with_tags items tags)).
Proof.
  intros H. unfold with_tags. destruct tags as [tags|]; simpl; [|eauto].
  rewrite (items_of_args _ _ H). simpl.
  destruct (decide (27 < length items)); simpl.
  - rewrite (set_items_args _ _ _ H). simpl.
    erewrite items_of_args by apply get_set_eq. simpl.
    erewrite set_items_args by apply get_set_eq.
    eexists. split; [done|]. apply get_set_eq.
  - rewrite (items_of_args _ _ H). simpl. rewrite (set_items_args _ _ _ H).
    eexists. split; [done|]. apply get_set_eq.
Qed.

(** ** The commands of a script *)

Lemma not_starter (category : string) :
  bool_decide (category ∈ TEMPLATE_STARTERS) = false → ¬ category ∈ TEMPLATE_STARTERS.
Proof. apply bool_decide_eq_false. Qed.

Ltac solve_builder_made :=
  split; [reflexivity|];
  split; [first [by intros [? [=]] | by (intros _; eexists)]|];
  let H := fresh "H" in
  intros ? [= <-] H;
  first [ exfalso; revert H; apply not_starter; by vm_compute
        | left; by eexists
        | right; split; [reflexivity | by eexists] ].

Lemma builder_made_action_block (block name : string) (args : list TypedValue)
    (target : string) :
  builder_made (action_block block name args target).
Proof. split; [done|]. split; [by intros [? [=]]|]. intros ? _ _. left. by eexists. Qed.

Lemma builder_made_append (t : DFTemplate) (cmd : CodeBlock) :
  Forall builder_made (commands t) → builder_made cmd →
  Forall builder_made (commands (append_command t cmd)).
Proof. intros Ht Hcmd. simpl. apply Forall_app. by split; [|constructor]. Qed.

Lemma builder_made_openbracket (t : DFTemplate) (btype : string) :
  Forall builder_made (commands t) →
  Forall builder_made (commands (_openbracket t btype)).
Proof.
  intros Ht. simpl. apply Forall_app. split; [done|]. constructor; [|done].
  split; [done|]. split; [intros _; by eexists|]. by intros ? [=].
Qed.

Lemma set_locals_builder_made (t t' : DFTemplate) (parameters : list (string * Raw))
    (keys : list string) :
  set_locals t parameters keys = Ok t' →
  Forall builder_made (commands t) → Forall builder_made (commands t').
Proof.
  revert t. induction keys as [|key keys IH]; simpl; intros t H Ht.
  - by injection H as <-.
  - inv_bind H. unfold setVariable in H. inv_bind H. inv_bind Ha0.
    injection Ha0 as <-. apply (IH _ H). apply builder_made_append; [done|].
    apply builder_made_action_block.
Qed.

Lemma exec_builder_made (t t' : DFTemplate) (c : Call) :
  exec t c = Ok t' →
  Forall builder_made (commands t) → Forall builder_made (commands t').
Proof.
  intros H Ht.
  destruct c; simpl in H;
    try (injection H as <-);
    try (inv_bind H; injection H as <-);
    try (apply builder_made_openbracket);
    try (apply builder_made_append; [done|]);
    try apply builder_made_action_block;
    try solve_builder_made;
    try done.
  - apply builder_made_append; [|solve_builder_made].
    destruct parameters; [by injection Ha as <-|].
    by apply (set_locals_builder_made _ _ _ _ Ha).
  - split; [by destruct subAction|]. split; [by destruct subAction; intros [? [=]]|].
    intros ? _ _. left. destruct subAction; by eexists.
  - apply builder_made_append; [|apply builder_made_action_block].
    by apply (set_locals_builder_made _ _ _ _ Ha).
  - simpl. destruct createSetVar; [|by injection Ha as <-].
    unfold setVariable in Ha. inv_bind Ha. injection Ha as <-.
    apply builder_made_append; [done|]. apply builder_made_action_block.
Qed.

(** Every command of a template that a script built was created by a
    builder method. *)
Lemma run_builder_made (t t' : DFTemplate) (calls : list Call) :
  run t calls = Ok t' →
  Forall builder_made (commands t) → Forall builder_made (commands t').
Proof.
  revert t. induction calls as [|c calls IH]; simpl; intros t H Ht.
  - by injection H as <-.
  - inv_bind H. apply (IH _ H). by apply (exec_builder_made _ _ _ Ha).
Qed.

Lemma script_command_builder_made (t : DFTemplate) (calls : list Call) (cmd : CodeBlock) :
  run init calls = Ok t → cmd ∈ commands t → builder_made cmd.
Proof.
  intros Hrun Hcmd.
  assert (Forall builder_made (commands t)) as Hall.
  { apply (run_builder_made _ _ _ Hrun). constructor. }
  rewrite Forall_forall in Hall. by apply Hall.
Qed.

(** ** Console output *)

Lemma Out_lift_bind {A B : Type} (a : A) (f : A → Out B) : lift (Ok a) ≫= f = f a.
Proof. unfold lift, mbind, Out_bind. by destruct (f a). Qed.

Lemma Out_bind_Ok {A B : Type} (m : Out A) (f : A → Out B) (o : list string) (b : B) :
  m ≫= f = (o, Ok b) ↔
  ∃ o1 a o2, m = (o1, Ok a) ∧ f a = (o2, Ok b) ∧ o = o1 ++ o2.
Proof.
  unfold mbind, Out_bind. destruct m as [o1 [a|e]].
  - destruct (f a) as [o2 r] eqn:Hf. split.
    + intros [= <- ->]. by exists o1, a, o2.
    + intros (o1' & a' & o2' & [= <- <-] & Hf' & ->). rewrite Hf in Hf'. by injection Hf' as <- <-.
  - split; [done|]. by intros (o1' & a' & o2' & [=] & _).
Qed.

Section BuildProperties.
Variable TAGDATA : gmap string (gmap string (list Item)).
Variables TAGDATA_KEYS TAGDATA_EXTRAS_KEYS : gset string.
Variable get_close_matches : string → list string → list string.
Variable str_document : Document → string.
Variable gzip_compress : list byte → list byte.

Abbreviation build :=
  (build TAGDATA TAGDATA_KEYS TAGDATA_EXTRAS_KEYS get_close_matches str_document
     gzip_compress).

Abbreviation lookup_tags := (lookup_tags TAGDATA TAGDATA_KEYS TAGDATA_EXTRAS_KEYS get_close_matches).
Abbreviation assemble_block :=
  (assemble_block TAGDATA TAGDATA_KEYS TAGDATA_EXTRAS_KEYS get_close_matches).
Abbreviation assemble_blocks :=
  (assemble_blocks TAGDATA TAGDATA_KEYS TAGDATA_EXTRAS_KEYS get_close_matches).
Abbreviation block_items :=
  (block_items TAGDATA TAGDATA_KEYS TAGDATA_EXTRAS_KEYS get_close_matches).

(** The block of a command before its tags are looked up: every key of the
    data copied, and the rendered arguments under ['args']. *)
Lemma assemble_block_spec (cmd : CodeBlock) :
  builder_made cmd →
  ∃ block0, PyDict.get block0 "args" = Some (VArgs (own_items cmd)) ∧
            assemble_block cmd = (lookup_tags cmd ≫= λ tags, lift (attach_tags block0 tags)).
Proof.
  intros (Hargs & Htype & _). unfold assemble_block.
  destruct (copy_keys_args (data cmd) (PyDict.keys (data cmd)) [("args", VArgs [])])
    as (b1 & -> & Hb1).
  { intros k. apply get_key. }
  { rewrite get_key, Hargs. by intros [? ?]. }
  rewrite Out_lift_bind. simpl in Hb1.
  destruct (copy_bracket_data_args cmd b1 Htype) as (b2 & -> & Hb2).
  rewrite Out_lift_bind, Hb1 in *.
  pose proof (add_target_args cmd b2) as Hb3. rewrite Hb2 in Hb3.
  destruct (add_args_args cmd _ Hb3) as (b4 & -> & Hb4).
  rewrite Out_lift_bind. by exists b4.
Qed.

(** The items list of an assembled block: the rendered arguments of the
    command with the tags that were looked up. *)
Lemma block_items_spec (cmd : CodeBlock) :
  builder_made cmd →
  block_items cmd = (lookup_tags cmd ≫= λ tags, mret (with_tags (own_items cmd) tags)).
Proof.
  intros Hcmd. unfold block_items.
  destruct (assemble_block_spec cmd Hcmd) as (block0 & Hblock0 & ->).
  destruct (lookup_tags cmd) as [o [tags|e]]; [|done].
  destruct (attach_tags_args block0 _ tags Hblock0) as (block' & Hattach & Hget).
  unfold mbind at 2. unfold Out_bind. rewrite Hattach.
  unfold lift, mbind, Out_bind, mret, Out_ret. rewrite (items_of_args _ _ Hget).
  by rewrite !app_nil_r.
Qed.

(** The blocks of the document are the blocks of the commands, in order. *)
Lemma assemble_blocks_each (cmds : list CodeBlock) (o : list string) (blocks : list Block) :
  assemble_blocks cmds = (o, Ok blocks) →
  Forall2 (λ cmd block, ∃ o', assemble_block cmd = (o', Ok block)) cmds blocks.
Proof.
  revert o blocks. induction cmds as [|cmd cmds IH]; simpl; intros o blocks H.
  - injection H as <- <-. constructor.
  - apply Out_bind_Ok in H as (o1 & block & o1' & Hblock & H & _).
    apply Out_bind_Ok in H as (o2 & blocks' & o2' & Hblocks & [= <- <-] & _).
    constructor; [by eexists | by apply (IH _ _ Hblocks)].
Qed.

(** ** Tags and capacity *)

Lemma slice_to_nonneg {A : Type} (items : list A) (n : nat) :
  slice_to items (Z.of_nat n) = take n items.
Proof. unfold slice_to. rewrite decide_True by lia. by rewrite Nat2Z.id. Qed.

(** What lines 138-142 of [build] do.  The tags found for a block are
    appended after the items kept from its rendered arguments, and every tag
    is there.  The guard counts the rendered items alone: a block with at
    most 27 of them keeps all; a block with more than 27, and at most 26
    tags, keeps its first [26 - tagCount], so that the final list has
    [(26 - tagCount) + tagCount = 26] entries. *)
Theorem tags_follow_items (t : DFTemplate) (calls : list Call) (cmd : CodeBlock)
    (tags : list Item) (o : list string) :
  run init calls = Ok t →
  cmd ∈ commands t →
  lookup_tags cmd = (o, Ok (Some tags)) →
  ∃ kept, block_items cmd = (o, Ok (kept ++ tags)) ∧
          (length (own_items cmd) ≤ 27 → kept = own_items cmd) ∧
          (27 < length (own_items cmd) → length tags ≤ 26 →
           kept = take (26 - length tags) (own_items cmd) ∧
           length (kept ++ tags) = 26 - length tags + length tags).
Proof.
  intros Hrun Hcmd Htags.
  rewrite (block_items_spec cmd (script_command_builder_made _ _ _ Hrun Hcmd)), Htags.
  unfold with_tags.
  exists (if decide (27 < length (own_items cmd))
          then slice_to (own_items cmd) (26 - Z.of_nat (length tags))
          else own_items cmd).
  split; [|split].
  - unfold mbind, Out_bind, mret, Out_ret. by rewrite app_nil_r.
  - intros Hle. by rewrite decide_False by lia.
  - intros Hlt Htl. rewrite decide_True by done.
    replace (26 - Z.of_nat (length tags))%Z with (Z.of_nat (26 - length tags)) by lia.
    rewrite slice_to_nonneg. split; [done|].
    rewrite length_app, length_take. lia.
Qed.

(** ** Slots *)




(** ** The name of the template *)

(** The name [build] derives when the first block carries a category: the
    category and the action joined for an entry point with an action, the
    data string for an entry point without an action, and "Unnamed" with a
    warning for another category. *)
Lemma template_name_rules (block0 : Block) (rest : list Block) (category : string) :
  PyDict.get block0 "block" = Some (VStr category) →
  (category ∈ TEMPLATE_STARTERS →
   ∀ action, PyDict.get block0 "action" = Some (VStr action) →
             template_name (mkDocument (block0 :: rest))
             = ([], Ok (VStr (category +:+ "_" +:+ action)))) ∧
  (category ∈ TEMPLATE_STARTERS →
   PyDict.get block0 "action" = None →
   ∀ name, PyDict.get block0 "data" = Some name →
           template_name (mkDocument (block0 :: rest)) = ([], Ok name)) ∧
  (category ∉ TEMPLATE_STARTERS →
   template_name (mkDocument (block0 :: rest))
   = ([COL_WARN +:+ "! WARNING ! "
         +:+ "Template does not start with an event, function, or process." +:+ COL_RESET],
      Ok (VStr "Unnamed"))).
Proof.
  intros Hcategory. unfold template_name. cbn [blocks].
  rewrite Out_lift_bind. unfold PyDict.getitem. rewrite Hcategory.
  rewrite Out_lift_bind. cbn beta iota. rewrite Out_lift_bind.
  split; [|split].
  - intros Hstarter action Haction. rewrite bool_decide_eq_true_2 by done.
    cbn [negb]. by rewrite Haction.
  - intros Hstarter Haction name Hdata. rewrite bool_decide_eq_true_2 by done.
    cbn [negb]. by rewrite Haction, Hdata.
  - intros Hstarter. rewrite bool_decide_eq_false_2 by done. done.
Qed.

(** C5 (defect).  [build] on a template without commands does not return
    the name "Unnamed": after the success notice, [mainDict['blocks'][0]]
    raises [IndexError].  A template whose first command is a closing
    bracket has no ['block'] key in its first block, and [build] raises
    [KeyError('block')] instead of warning and returning "Unnamed". *)
Theorem build_without_first_category_raises :
  build init
  = ([COL_SUCCESS +:+ "Template built successfully." +:+ COL_RESET], Raise IndexError) ∧
  build (append_command init (closing_bracket None))
  = ([COL_SUCCESS +:+ "Template built successfully." +:+ COL_RESET],
     Raise (KeyError "block")).
Proof. split; reflexivity. Qed.
End BuildProperties.

(** The example of the specification: a join event and a message.  The
    document has two blocks, the second with the text at slot 0 and the tag
    of the schema, and the name is "event_Join"; the text "doc" for the
    document, left uncompressed, is encoded as "ZG9j". *)
Example build_join_hello :
  (t ← lift (playerAction (playerEvent init "Join") "SendMessage" [RStr "hello"] "Default");
   build example_file (dom example_file) ∅ no_close_matches (λ _, "doc") (λ bs, bs) t)
  = ([COL_SUCCESS +:+ "Template built successfully." +:+ COL_RESET],
     Ok ("ZG9j", VStr "event_Join")) ∧
  (assemble_blocks example_file (dom example_file) ∅ no_close_matches
     [mkCodeBlock "Join" [] "Default"
        [("id", Some "block"); ("block", Some "event"); ("action", Some "Join")];
      action_block "player_action" "SendMessage" [text "hello"] "Default"]).2
  = Ok [[("args", VArgs []); ("id", VStr "block"); ("block", VStr "event");
         ("action", VStr "Join")];
        [("args", VArgs [Rendered (text "hello") 0; Tag "tag"]); ("id", VStr "block");
         ("block", VStr "player_action"); ("action", VStr "SendMessage")]].
Proof. split; vm_compute; reflexivity. Qed.

(** The tables of the examples below are the ones [_loadCodeblockData]
    returns for [example_file]. *)
Example example_tables_loaded :
  (_loadCodeblockData (Some example_file)).2 = Ok (example_file, dom example_file, ∅).
Proof. reflexivity. Qed.

(** C1 (defect).  The cut to [26 - len(tags)] items makes room for the
    tags, but the guard [len(items) > 27] leaves the tags out of the count:
    with 27 rendered items and one tag the combined list would exceed the
    capacity of 27, and yet the items are not cut to the first 25; the final
    list has 28 entries, not [(26 - 1) + 1 = 26].  One argument more, 28
    rendered items, and the same block is cut to 25 items and the tag. *)
Lemma tags_beyond_capacity_not_cut :
  27 < length (own_items (send_message 27)) + length [Tag "tag"] ∧
  lookup_tags example_file (dom example_file) ∅ no_close_matches (send_message 27)
  = ([], Ok (Some [Tag "tag"])) ∧
  block_items example_file (dom example_file) ∅ no_close_matches (send_message 27)
  = ([], Ok (own_items (send_message 27) ++ [Tag "tag"])) ∧
  length (own_items (send_message 27) ++ [Tag "tag"]) = 28 ∧
  28 ≠ 26 - 1 + 1 ∧
  block_items example_file (dom example_file) ∅ no_close_matches (send_message 28)
  = ([], Ok (take 25 (own_items (send_message 28)) ++ [Tag "tag"])).
Proof. vm_compute. repeat split; (reflexivity || lia). Qed.

Lemma tags_follow_items_witness :
  ∃ kept,
    block_items example_file (dom example_file) ∅ no_close_matches (send_message 28)
    = ([], Ok (kept ++ [Tag "tag"])) ∧
    (length (own_items (send_message 28)) ≤ 27 → kept = own_items (send_message 28)) ∧
    (27 < length (own_items (send_message 28)) → length [Tag "tag"] ≤ 26 →
     kept = take (26 - length [Tag "tag"]) (own_items (send_message 28)) ∧
     length (kept ++ [Tag "tag"]) = 26 - length [Tag "tag"] + length [Tag "tag"]).
Proof.
  apply (tags_follow_items example_file (dom example_file) ∅ no_close_matches
           (mkDFTemplate [send_message 28] None ∅)
           [CPlayerAction "SendMessage" (replicate 28 (RStr "a")) "Default"]).
  - reflexivity.
  - apply list_elem_of_here.
  - vm_compute. reflexivity.
Defined.



(** ** Base64 *)

Lemma digit_value (n : N) :
  (n < 64)%N →
  Base64.value (byte_of_ascii (Base64.digit n)) = Some n ∧
  byte_of_ascii (Base64.digit n) ≠ "="%byte.
Proof.
  intros Hn.
  assert (forallb Base64.digit_ok (N.of_nat <$> seq 0 64) = true) as Hall by (by vm_compute).
  rewrite forallb_forall in Hall.
  assert (Base64.digit_ok n = true) as Hok.
  { apply Hall. apply list_elem_of_In. apply list_elem_of_fmap. exists (N.to_nat n).
    split; [lia|]. apply elem_of_seq. lia. }
  unfold Base64.digit_ok in Hok. apply andb_true_iff in Hok as [H1 H2].
  apply bool_decide_eq_true in H1. apply negb_true_iff, bool_decide_eq_false in H2. done.
Qed.

Lemma byte_of_to_N (b : byte) : Base64.byte_of (Byte.to_N b) = b.
Proof. unfold Base64.byte_of. by rewrite Byte.of_to_N. Qed.

Lemma to_N_lt (b : byte) : (Byte.to_N b < 256)%N.
Proof. pose proof (Byte.to_N_bounded b). lia. Qed.

Lemma group_of_three (a b c : N) :
  (a < 256 → b < 256 → c < 256 →
   let n := a * 65536 + b * 256 + c in
   n / 262144 < 64 ∧
   (n / 262144) * 262144 + ((n / 4096) mod 64) * 4096 + ((n / 64) mod 64) * 64 + n mod 64 = n ∧
   n / 65536 = a ∧ (n / 256) mod 256 = b ∧ n mod 256 = c)%N.
Proof. intros. subst n. zify. Z.to_euclidean_division_equations. lia. Qed.

Lemma group_of_two (a b : N) :
  (a < 256 → b < 256 →
   let n := a * 65536 + b * 256 in
   n / 262144 < 64 ∧
   (n / 262144) * 262144 + ((n / 4096) mod 64) * 4096 + ((n / 64) mod 64) * 64 = n ∧
   n / 65536 = a ∧ (n / 256) mod 256 = b)%N.
Proof. intros. subst n. zify. Z.to_euclidean_division_equations. lia. Qed.

Lemma group_of_one (a : N) :
  (a < 256 →
   let n := a * 65536 in
   n / 262144 < 64 ∧
   (n / 262144) * 262144 + ((n / 4096) mod 64) * 4096 = n ∧ n / 65536 = a)%N.
Proof. intros. subst n. zify. Z.to_euclidean_division_equations. lia. Qed.

Lemma list_ind_by_three {A : Type} (P : list A → Prop) :
  P [] → (∀ a, P [a]) → (∀ a b, P [a; b]) →
  (∀ a b c rest, P rest → P (a :: b :: c :: rest)) →
  ∀ l, P l.
Proof.
  intros H0 H1 H2 H3.
  assert (∀ l, P l ∧ (∀ a, P (a :: l)) ∧ (∀ a b, P (a :: b :: l))) as H.
  { induction l as [|x l (IH0 & IH1 & IH2)]; [by auto|].
    split; [apply IH1|]. split; [intros a; apply IH2|]. intros a b. by apply H3. }
  intros l. apply H.
Qed.

Lemma mod_64_lt (n : N) : (n mod 64 < 64)%N.
Proof. by apply N.mod_lt. Qed.

Theorem b64decode_b64encode (bs : list byte) :
  Base64.b64decode (Base64.b64encode bs) = Some bs.
Proof.
  induction bs as [|a|a b|a b c rest IH] using list_ind_by_three.
  - done.
  - pose proof (group_of_one (Byte.to_N a) (to_N_lt a)) as (H1 & Hn & Ha).
    cbn [Base64.b64encode map]. cbn zeta in *.
    set (n := (Byte.to_N a * 65536)%N) in *.
    destruct (digit_value (n / 262144) H1) as [Hv1 _].
    destruct (digit_value ((n / 4096) mod 64) (mod_64_lt _)) as [Hv2 _].
    cbn [Base64.b64decode]. rewrite Hv1, Hv2. cbn [mbind option_bind].
    rewrite !decide_True by done. by rewrite Hn, Ha, byte_of_to_N.
  - pose proof (group_of_two (Byte.to_N a) (Byte.to_N b) (to_N_lt a) (to_N_lt b))
      as (H1 & Hn & Ha & Hb).
    cbn [Base64.b64encode map]. cbn zeta in *.
    set (n := (Byte.to_N a * 65536 + Byte.to_N b * 256)%N) in *.
    destruct (digit_value (n / 262144) H1) as [Hv1 _].
    destruct (digit_value ((n / 4096) mod 64) (mod_64_lt _)) as [Hv2 _].
    destruct (digit_value ((n / 64) mod 64) (mod_64_lt _)) as [Hv3 Hp3].
    cbn [Base64.b64decode]. rewrite Hv1, Hv2. cbn [mbind option_bind].
    rewrite decide_True by done. rewrite decide_False by done.
    rewrite Hv3. cbn [mbind option_bind].
    by rewrite Hn, Ha, Hb, !byte_of_to_N.
  - pose proof (group_of_three (Byte.to_N a) (Byte.to_N b) (Byte.to_N c)
                  (to_N_lt a) (to_N_lt b) (to_N_lt c)) as (H1 & Hn & Ha & Hb & Hc).
    cbn [Base64.b64encode map app]. cbn zeta in *.
    set (n := (Byte.to_N a * 65536 + Byte.to_N b * 256 + Byte.to_N c)%N) in *.
    destruct (digit_value (n / 262144) H1) as [Hv1 _].
    destruct (digit_value ((n / 4096) mod 64) (mod_64_lt _)) as [Hv2 _].
    destruct (digit_value ((n / 64) mod 64) (mod_64_lt _)) as [Hv3 _].
    destruct (digit_value (n mod 64) (mod_64_lt _)) as [Hv4 Hp4].
    cbn [Base64.b64decode]. rewrite Hv1, Hv2. cbn [mbind option_bind].
    rewrite decide_False by done.
    rewrite Hv3, Hv4. cbn [mbind option_bind].
    fold Base64.b64decode. rewrite IH. cbn [mbind option_bind].
    by rewrite Hn, Ha, Hb, Hc, !byte_of_to_N.
Qed.

Lemma digit_b64char (n : N) : (n < 64)%N → Base64.b64char (byte_of_ascii (Base64.digit n)) = true.
Proof.
  intros Hn. unfold Base64.b64char. by destruct (digit_value n Hn) as [-> _].
Qed.

Lemma b64encode_chars (bs : list byte) :
  Forall (λ c, Base64.b64char c = true) (Base64.b64encode bs).
Proof.
  induction bs as [|a|a b|a b c rest IH] using list_ind_by_three.
  - constructor.
  - pose proof (group_of_one (Byte.to_N a) (to_N_lt a)) as (H1 & _).
    cbn [Base64.b64encode map]. cbn zeta in *.
    repeat constructor; auto using digit_b64char, mod_64_lt.
  - pose proof (group_of_two (Byte.to_N a) (Byte.to_N b) (to_N_lt a) (to_N_lt b))
      as (H1 & _).
    cbn [Base64.b64encode map]. cbn zeta in *.
    repeat constructor; auto using digit_b64char, mod_64_lt.
  - pose proof (group_of_three (Byte.to_N a) (Byte.to_N b) (Byte.to_N c)
                  (to_N_lt a) (to_N_lt b) (to_N_lt c)) as (H1 & _).
    cbn [Base64.b64encode map app]. cbn zeta in *.
    repeat (constructor; [auto using digit_b64char, mod_64_lt|]). done.
Qed.

(** ** The text of base64 bytes *)

Lemma escape_b64char (c : byte) :
  Base64.b64char c = true →
  BytesRepr.escape "'" (ascii_of_byte c) = String (ascii_of_byte c) "" ∧
  c ≠ byte_of_ascii "'".
Proof. destruct c; vm_compute; intros H; (discriminate H || (split; [reflexivity | discriminate])). Qed.

Lemma body_b64 (bs : list byte) :
  Forall (λ c, Base64.b64char c = true) bs →
  BytesRepr.body "'" bs = String.string_of_list_byte bs.
Proof.
  induction 1 as [|c bs Hc _ IH]; simpl; [done|].
  destruct (escape_b64char c Hc) as [-> _]. simpl. by rewrite IH.
Qed.

Lemma quote_b64 (bs : list byte) :
  Forall (λ c, Base64.b64char c = true) bs → BytesRepr.quote_of bs = "'"%char.
Proof.
  intros Hbs. unfold BytesRepr.quote_of. rewrite decide_False; [done|].
  intros Hin. rewrite Forall_forall in Hbs. by destruct (escape_b64char _ (Hbs _ Hin)).
Qed.

Lemma substring_prefix (s s' : string) :
  String.substring 0 (String.length s) (s +:+ s') = s.
Proof. induction s as [|c s IH]; simpl; [by destruct s'|]. by rewrite IH. Qed.

Lemma string_length_app (s s' : string) :
  String.length (s +:+ s') = String.length s + String.length s'.
Proof. induction s as [|c s IH]; simpl; [done|]. by rewrite IH. Qed.

Lemma slice_of_repr (bs : list byte) :
  Forall (λ c, Base64.b64char c = true) bs →
  slice_2_m1 (BytesRepr.repr bs) = String.string_of_list_byte bs.
Proof.
  intros Hbs. unfold BytesRepr.repr. rewrite (quote_b64 bs Hbs), (body_b64 bs Hbs).
  unfold slice_2_m1. cbn [String.length String.substring].
  rewrite string_length_app. cbn [String.length].
  replace (S (S (String.length (string_of_list_byte bs) + 1)) - 3)
    with (String.length (string_of_list_byte bs)) by lia.
  apply substring_prefix.
Qed.

(** ** The keys of an assembled block *)

Lemma copy_keys_get (data : list (string * option string)) (keys : list string)
    (block block' : Block) (k : string) :
  copy_keys data keys block = Ok block' →
  PyDict.get block' k =
  if decide (k ∈ keys) then of_data <$> PyDict.get data k else PyDict.get block k.
Proof.
  revert block. induction keys as [|key keys IH]; simpl; intros block H.
  - by injection H as <-.
  - inv_bind H. unfold PyDict.getitem in Ha.
    destruct (PyDict.get data key) as [v|] eqn:Hv; [|done]. injection Ha as <-.
    rewrite (IH _ H). destruct (decide (k ∈ keys)) as [Hin|Hnin].
    + rewrite decide_True; [done|]. by apply list_elem_of_further.
    + destruct (decide (k = key)) as [->|Hne].
      * rewrite decide_True by apply list_elem_of_here. by rewrite get_set_eq, Hv.
      * rewrite decide_False; [by rewrite get_set_ne|].
        intros [->|?]%elem_of_cons; done.
Qed.

Lemma copy_bracket_data_frame (cmd : CodeBlock) (block block' : Block) (k : string) :
  copy_bracket_data cmd block = Ok block' →
  k ≠ "direct" → k ≠ "type" → PyDict.get block' k = PyDict.get block k.
Proof.
  unfold copy_bracket_data. intros H Hdirect Htype.
  destruct (mjoin (PyDict.get (data cmd) "direct")); [|by injection H as <-].
  inv_bind H. inv_bind H. injection H as <-. by rewrite !get_set_ne.
Qed.

Lemma add_target_frame (cmd : CodeBlock) (block : Block) (k : string) :
  k ≠ "target" → PyDict.get (add_target cmd block) k = PyDict.get block k.
Proof. intros Hk. unfold add_target. repeat case_decide; try done. by rewrite get_set_ne. Qed.

Lemma set_items_frame (block block' : Block) (items : list Item) (k : string) :
  set_items block items = Ok block' → k ≠ "args" →
  PyDict.get block' k = PyDict.get block k.
Proof.
  unfold set_items. intros H Hk. inv_bind H.
  destruct a; try done. injection H as <-. by rewrite get_set_ne.
Qed.

Lemma add_items_frame (args : list TypedValue) (slot : nat) (block block' : Block)
    (k : string) :
  add_items args slot block = Ok block' → k ≠ "args" →
  PyDict.get block' k = PyDict.get block k.
Proof.
  revert slot block. induction args as [|arg args IH]; simpl; intros slot block H Hk.
  - by injection H as <-.
  - inv_bind H. rewrite (IH _ _ H Hk).
    destruct (decide (type arg ∈ VARIABLE_TYPES)); [|by injection Ha as <-].
    inv_bind Ha. by apply (set_items_frame _ _ _ _ Ha).
Qed.

Lemma add_args_frame (cmd : CodeBlock) (block block' : Block) (k : string) :
  add_args cmd block = Ok block' → k ≠ "args" →
  PyDict.get block' k = PyDict.get block k.
Proof.
  unfold add_args. destruct (args cmd); [by intros [= <-]|]. apply add_items_frame.
Qed.

Lemma attach_tags_frame (block block' : Block) (tags : option (list Item)) (k : string) :
  attach_tags block tags = Ok block' → k ≠ "args" →
  PyDict.get block' k = PyDict.get block k.
Proof.
  unfold attach_tags. intros H Hk. destruct tags as [tags|]; [|by injection H as <-].
  inv_bind H. inv_bind H. inv_bind H.
  rewrite (set_items_frame _ _ _ _ H Hk).
  destruct (decide (27 < length a)); [|by injection Ha0 as <-].
  by apply (set_items_frame _ _ _ _ Ha0).
Qed.

Lemma not_in_keys (k : string) (keys : list string) :
  bool_decide (k ∈ keys) = false → k ∉ keys.
Proof. apply bool_decide_eq_false. Qed.

Lemma lift_Ok {A : Type} (r : result A) (o : list string) (a : A) :
  lift r = (o, Ok a) → r = Ok a ∧ o = [].
Proof. unfold lift. by intros [= <- ->]. Qed.

(** ** The example printer *)

Lemma positive_of_bits_of_positive (p : positive) :
  positive_of_bits (bits_of_positive p) = Some p.
Proof. induction p as [p IH|p IH|]; simpl; [by rewrite IH..|done]. Qed.

Lemma example_parse_str (d : Document) : example_parse (example_str d) = Some d.
Proof.
  unfold example_parse, example_str. rewrite positive_of_bits_of_positive. simpl.
  apply decode_encode.
Qed.

(** ** Encoding and decoding *)

Section Roundtrip.
Variable file : option (gmap string (gmap string (list Item))).
Variable TAGDATA : gmap string (gmap string (list Item)).
Variables TAGDATA_KEYS TAGDATA_EXTRAS_KEYS : gset string.
Variable get_close_matches : string → list string → list string.
Variable str_document : Document → string.
Variable gzip_compress : list byte → list byte.
Variable parse_document : string → option Document.
Variable gzip_decompress : list byte → option (list byte).

(** The tables are the ones [_loadCodeblockData] returned. *)
Hypothesis tables_loaded :
  (_loadCodeblockData file).2 = Ok (TAGDATA, TAGDATA_KEYS, TAGDATA_EXTRAS_KEYS).

(** The contracts of the library functions: [gzip.decompress] inverts
    [gzip.compress], and the parser reads the text of a document back. *)
Hypothesis gzip_roundtrip : ∀ bs, gzip_decompress (gzip_compress bs) = Some bs.
Hypothesis parse_str : ∀ d, parse_document (str_document d) = Some d.

Abbreviation lookup_tags' :=
  (lookup_tags TAGDATA TAGDATA_KEYS TAGDATA_EXTRAS_KEYS get_close_matches).
Abbreviation assemble_block' :=
  (assemble_block TAGDATA TAGDATA_KEYS TAGDATA_EXTRAS_KEYS get_close_matches).
Abbreviation assemble_blocks' :=
  (assemble_blocks TAGDATA TAGDATA_KEYS TAGDATA_EXTRAS_KEYS get_close_matches).
Abbreviation build' :=
  (build TAGDATA TAGDATA_KEYS TAGDATA_EXTRAS_KEYS get_close_matches str_document
     gzip_compress).
Abbreviation decode' := (decode parse_document gzip_decompress).

(** With the tables of [_loadCodeblockData], looking up tags raises
    nothing. *)
Lemma lookup_tags_loaded (cmd : CodeBlock) : ∃ o tags, lookup_tags' cmd = (o, Ok tags).
Proof.
  unfold lookup_tags'.
  destruct (mjoin (PyDict.get (data cmd) "block")) as [blockType|]; [|by eexists _, _].
  unfold _loadCodeblockData in tables_loaded. destruct file as [tagData|].
  - unfold lookup_item in tables_loaded at 1.
    destruct (tagData !! "extras") as [extras|] eqn:Hextras; [|done].
    rewrite Out_lift_bind in tables_loaded. injection tables_loaded as <- <- <-.
    destruct (decide (blockType ∈ dom extras)) as [Hin|_].
    + apply elem_of_dom in Hin as [tags Htags].
      unfold lookup_item. rewrite Hextras, Out_lift_bind, Htags, Out_lift_bind.
      by eexists _, _.
    + destruct (decide (blockType ∈ dom tagData)) as [Hin|_]; [|by eexists _, _].
      apply elem_of_dom in Hin as [table Htable].
      unfold lookup_item. rewrite Htable, Out_lift_bind.
      destruct (table !! name cmd); [by eexists _, _|].
      destruct (get_close_matches _ _); by eexists _, _.
  - injection tables_loaded as <- <- <-.
    rewrite !decide_False by apply not_elem_of_empty. by eexists _, _.
Qed.

Lemma assemble_block_loaded (cmd : CodeBlock) :
  builder_made cmd → ∃ o block, assemble_block' cmd = (o, Ok block).
Proof.
  intros Hcmd.
  destruct (assemble_block_spec TAGDATA TAGDATA_KEYS TAGDATA_EXTRAS_KEYS get_close_matches
              cmd Hcmd) as (block0 & Hblock0 & ->).
  destruct (lookup_tags_loaded cmd) as (o & tags & ->).
  destruct (attach_tags_args block0 _ tags Hblock0) as (block & Hblock & _).
  unfold mbind, Out_bind. rewrite Hblock. by eexists _, _.
Qed.

Lemma assemble_block_get (cmd : CodeBlock) (o : list string) (block : Block) (k : string) :
  assemble_block' cmd = (o, Ok block) →
  k ∉ ["args"; "direct"; "type"; "target"] →
  PyDict.get block k = of_data <$> PyDict.get (data cmd) k.
Proof.
  intros H Hk.
  assert (k ≠ "args" ∧ k ≠ "direct" ∧ k ≠ "type" ∧ k ≠ "target") as (Ha & Hd & Hty & Htg).
  { repeat split; intros ->; apply Hk; repeat constructor. }
  unfold assemble_block' in H.
  apply Out_bind_Ok in H as (o1 & b1 & o1' & [H1 _]%lift_Ok & H & _).
  apply Out_bind_Ok in H as (o2 & b2 & o2' & [H2 _]%lift_Ok & H & _).
  apply Out_bind_Ok in H as (o3 & b3 & o3' & [H3 _]%lift_Ok & H & _).
  apply Out_bind_Ok in H as (o4 & tags & o4' & _ & [H4 _]%lift_Ok & _).
  rewrite (attach_tags_frame _ _ _ _ H4 Ha), (add_args_frame _ _ _ _ H3 Ha).
  rewrite (add_target_frame _ _ _ Htg), (copy_bracket_data_frame _ _ _ _ H2 Hd Hty).
  rewrite (copy_keys_get _ _ _ _ k H1). simpl.
  destruct (decide (k ∈ PyDict.keys (data cmd))) as [Hin|Hnin]; [done|].
  rewrite decide_False by done.
  destruct (PyDict.get (data cmd) k) eqn:Hget; [|done].
  exfalso. apply Hnin. apply get_key. by eexists.
Qed.

Lemma assemble_blocks_length (cmds : list CodeBlock) (o : list string) (blocks : list Block) :
  assemble_blocks' cmds = (o, Ok blocks) → length blocks = length cmds.
Proof.
  revert o blocks. induction cmds as [|cmd cmds IH]; simpl; intros o blocks H.
  - by injection H as <- <-.
  - apply Out_bind_Ok in H as (o1 & block & o1' & _ & H & _).
    apply Out_bind_Ok in H as (o2 & blocks' & o2' & H2 & [= <- <-] & _).
    simpl. f_equal. by apply (IH _ _ H2).
Qed.

Lemma assemble_blocks_loaded (cmds : list CodeBlock) :
  Forall builder_made cmds → ∃ o blocks, assemble_blocks' cmds = (o, Ok blocks).
Proof.
  induction 1 as [|cmd cmds Hcmd _ (o & blocks & IH)]; simpl; [by eexists _, _|].
  destruct (assemble_block_loaded cmd Hcmd) as (o1 & block & ->).
  rewrite IH. by eexists _, _.
Qed.

(** [build] returns for a template of builder-made commands whose first
    command carries a category. *)
Lemma build_returns (t : DFTemplate) (cmd : CodeBlock) (rest : list CodeBlock)
    (category : string) :
  Forall builder_made (commands t) →
  commands t = cmd :: rest →
  mjoin (PyDict.get (data cmd) "block") = Some category →
  ∃ o templateCode templateName, build' t = (o, Ok (templateCode, templateName)).
Proof.
  intros Hmade Hcmds Hcategory.
  destruct (assemble_blocks_loaded _ Hmade) as (o & blocks & Hblocks).
  assert (∃ o' name, template_name (mkDocument blocks) = (o', Ok name)) as (o' & name & Hname).
  { rewrite Hcmds in Hblocks, Hmade. simpl in Hblocks.
    apply Out_bind_Ok in Hblocks as (o1 & block & o1' & Hblock & H & _).
    apply Out_bind_Ok in H as (o2 & blocks' & o2' & _ & [= <- <-] & _).
    apply Forall_cons in Hmade as [(_ & _ & Hnamed) _].
    assert (PyDict.get (data cmd) "block" = Some (Some category)) as Hdata.
    { destruct (PyDict.get (data cmd) "block") as [[c|]|]; simpl in *; congruence. }
    assert (PyDict.get block "block" = Some (VStr category)) as Hget.
    { rewrite (assemble_block_get _ _ _ "block" Hblock), Hdata; [done|].
      by apply not_in_keys; vm_compute. }
    destruct (template_name_rules block blocks' category Hget) as (Haction & Hnoaction & Hother).
    destruct (decide (category ∈ TEMPLATE_STARTERS)) as [Hstarter|Hstarter];
      [|rewrite (Hother Hstarter); by eexists _, _].
    destruct (Hnamed category Hcategory Hstarter) as [[action Ha]|[Ha [name Hd]]].
    - rewrite (Haction Hstarter action); [by eexists _, _|].
      rewrite (assemble_block_get _ _ _ "action" Hblock), Ha; [done|].
      by apply not_in_keys; vm_compute.
    - rewrite (Hnoaction Hstarter) with (name := of_data name); [by eexists _, _| |].
      + rewrite (assemble_block_get _ _ _ "action" Hblock), Ha; [done|].
        by apply not_in_keys; vm_compute.
      + rewrite (assemble_block_get _ _ _ "data" Hblock), Hd; [done|].
        by apply not_in_keys; vm_compute. }
  unfold build'. rewrite Hblocks.
  unfold mbind at 1. unfold Out_bind.
  unfold mbind at 1. unfold Out_bind, print.
  unfold mbind at 1. unfold Out_bind. rewrite Hname.
  unfold mret, Out_ret. by eexists _, _, _.
Qed.

(** Decoding inverts [_compress] composed with the text of the document. *)
Lemma decode_compress (d : Document) :
  decode' (_compress gzip_compress (str_document d)) = Some d.
Proof.
  unfold decode', _compress.
  rewrite (slice_of_repr _ (b64encode_chars _)).
  rewrite String.list_byte_of_string_of_list_byte, b64decode_b64encode. simpl.
  rewrite gzip_roundtrip. simpl.
  by rewrite String.string_of_list_byte_of_string, parse_str.
Qed.

(** C2.  Whenever [build] returns an encoded string, base64-decoding it,
    decompressing and parsing gives the document that [build] assembled,
    with one block for each command; and [build] does return for every
    template that a script built and whose first command carries a category
    (every command but a closing bracket does). *)
Theorem encoded_template_decodes (t : DFTemplate) :
  (∀ o templateCode templateName,
     build' t = (o, Ok (templateCode, templateName)) →
     ∃ o' blocks,
       assemble_blocks' (commands t) = (o', Ok blocks) ∧
       length blocks = length (commands t) ∧
       templateCode = _compress gzip_compress (str_document (mkDocument blocks)) ∧
       decode' templateCode = Some (mkDocument blocks)) ∧
  (∀ calls cmd rest category,
     run init calls = Ok t →
     commands t = cmd :: rest →
     mjoin (PyDict.get (data cmd) "block") = Some category →
     ∃ o templateCode templateName, build' t = (o, Ok (templateCode, templateName))).
Proof.
  split.
  - intros o templateCode templateName H. unfold build' in H.
    apply Out_bind_Ok in H as (o1 & blocks & o1' & Hblocks & H & _).
    apply Out_bind_Ok in H as (o2 & [] & o2' & _ & H & _).
    apply Out_bind_Ok in H as (o3 & name & o3' & _ & [= _ <- _] & _).
    exists o1, blocks. split; [done|]. split; [by apply assemble_blocks_length in Hblocks|].
    split; [done|]. apply decode_compress.
  - intros calls cmd rest category Hrun Hcmds Hcategory.
    apply (build_returns t cmd rest category); [|done..].
    apply (run_builder_made _ _ _ Hrun). constructor.
Qed.
End Roundtrip.

Lemma encoded_template_decodes_witness :
  ∃ o templateCode templateName o' blocks,
    build example_file (dom example_file) ∅ no_close_matches example_str (λ bs, bs)
      (mkDFTemplate
         [mkCodeBlock "Join" [] "Default"
            [("id", Some "block"); ("block", Some "event"); ("action", Some "Join")];
          send_message 1]
         None ∅)
    = (o, Ok (templateCode, templateName)) ∧
    assemble_blocks example_file (dom example_file) ∅ no_close_matches
      [mkCodeBlock "Join" [] "Default"
         [("id", Some "block"); ("block", Some "event"); ("action", Some "Join")];
       send_message 1]
    = (o', Ok blocks) ∧
    length blocks = 2 ∧
    decode example_parse Some templateCode = Some (mkDocument blocks).
Proof.
  destruct (encoded_template_decodes (Some example_file) example_file (dom example_file) ∅
              no_close_matches example_str (λ bs, bs) example_parse Some
              eq_refl (λ bs, eq_refl) example_parse_str
              (mkDFTemplate
                 [mkCodeBlock "Join" [] "Default"
                    [("id", Some "block"); ("block", Some "event"); ("action", Some "Join")];
                  send_message 1]
                 None ∅)) as [Hdecodes Hreturns].
  destruct (Hreturns
              [CPlayerEvent "Join"; CPlayerAction "SendMessage" [RStr "a"] "Default"]
              (mkCodeBlock "Join" [] "Default"
                 [("id", Some "block"); ("block", Some "event"); ("action", Some "Join")])
              [send_message 1] "event" eq_refl eq_refl eq_refl)
    as (o & templateCode & templateName & Hbuild).
  destruct (Hdecodes o templateCode templateName Hbuild)
    as (o' & blocks & Hblocks & Hlength & _ & Hdecode).
  exists o, templateCode, templateName, o', blocks. repeat split; assumption.
Defined.

(** * Further properties *)

(** ** Scripts *)

Lemma set_locals_prefix (t t' : DFTemplate) (parameters : list (string * Raw))
    (keys : list string) :
  set_locals t parameters keys = Ok t' → commands t `prefix_of` commands t'.
Proof.
  revert t. induction keys as [|key keys IH]; simpl; intros t H.
  - by injection H as <-.
  - inv_bind H. unfold setVariable in H. inv_bind H. inv_bind Ha0.
    injection Ha0 as <-. apply IH in H. simpl in H.
    etrans; [|exact H]. by apply prefix_app_r.
Qed.

Lemma exec_commands_grow (t t' : DFTemplate) (c : Call) :
  exec t c = Ok t' → c ≠ CClear →
  commands t `prefix_of` commands t' ∧ dom (definedVars t) ⊆ dom (definedVars t').
Proof.
  intros H Hclear.
  destruct c; simpl in H; try done;
    try (injection H as <-;
         split; [simpl; rewrite <- ?app_assoc; by apply prefix_app_r | done]);
    try (inv_bind H; injection H as <-;
         split; [simpl; rewrite <- ?app_assoc; by apply prefix_app_r | done]).
  - unfold callFunction in H. inv_bind H. injection H as <-. simpl.
    destruct parameters.
    + injection Ha as <-. split; [by apply prefix_app_r | done].
    + split; [|by apply set_locals_frame in Ha as [_ ->]].
      apply set_locals_prefix in Ha. etrans; [exact Ha|]. by apply prefix_app_r.
  - unfold return_ in H. inv_bind H. unfold control in H. inv_bind H.
    injection H as <-. simpl.
    split; [|by apply set_locals_frame in Ha as [_ ->]].
    apply set_locals_prefix in Ha. etrans; [exact Ha|]. by apply prefix_app_r.
  - unfold define_ in H. inv_bind H. injection H as <-. simpl.
    destruct createSetVar.
    + unfold setVariable in Ha. inv_bind Ha. injection Ha as <-. simpl.
      split; [by apply prefix_app_r|]. rewrite dom_insert. set_solver.
    + injection Ha as <-. split; [done|]. rewrite dom_insert. set_solver.
Qed.

(** X1.  Without [clear], a script removes nothing: the commands the
    template had stay at the front of the commands in their order, and every
    name that was defined stays defined. *)
Theorem script_keeps_commands (t t' : DFTemplate) (calls : list Call) :
  run t calls = Ok t' →
  Forall (λ c, c ≠ CClear) calls →
  commands t `prefix_of` commands t' ∧ dom (definedVars t) ⊆ dom (definedVars t').
Proof.
  revert t. induction calls as [|c calls IH]; simpl; intros t H Hcalls.
  - by injection H as <-.
  - inv_bind H. apply Forall_cons in Hcalls as [Hc Hcalls].
    destruct (exec_commands_grow _ _ _ Ha Hc) as [Hp Hd].
    destruct (IH _ H Hcalls) as [Hp' Hd'].
    split; [by etrans | by etrans].
Qed.

Lemma script_keeps_commands_witness :
  [closing_bracket None] `prefix_of`
    [closing_bracket None; call_block "f"] ∧
  dom (definedVars (append_command init (closing_bracket None))) ⊆ dom (∅ : gmap string TypedValue).
Proof.
  apply (script_keeps_commands (append_command init (closing_bracket None))
           (mkDFTemplate [closing_bracket None; call_block "f"] None ∅)
           [CCallFunction "f" []]).
  - reflexivity.
  - repeat constructor. discriminate.
Defined.

(** X2.  [clear] makes the calls before it irrelevant: a script that
    clears the template continues as a script on a new template. *)
Theorem clear_forgets (t t1 : DFTemplate) (before after : list Call) :
  run t before = Ok t1 →
  run t (before ++ CClear :: after) = run init after.
Proof. intros H. by rewrite run_app, H. Qed.

Lemma clear_forgets_witness :
  run init ([CElse; CDefine "x" (RNum (NInt 1)) "unsaved" true] ++ CClear :: [CBracket []])
  = run init [CBracket []].
Proof.
  apply (clear_forgets init
           (mkDFTemplate
              [mkCodeBlock "else" [] "Default" [("id", Some "block"); ("block", Some "else")];
               opening_bracket "norm";
               action_block "set_var" "=" [var "x" "unsaved"; num (NInt 1)] "Default"]
              (Some "norm") (<["x" := var "x" "unsaved"]> ∅))).
  reflexivity.
Defined.



(** ** Returning values *)

(** X4.  [return_] with return values (a dictionary, so with distinct keys)
    that convert appends one assignment to a local variable per value, in
    the order of the dictionary, and then the control block [Return]; with
    no values it appends the control block alone. *)
Theorem return_assigns_then_returns (t : DFTemplate) (returndata : list (string * Raw))
    (values : list TypedValue) :
  NoDup (PyDict.keys returndata) →
  _convertDataTypes t returndata.*2 = Ok values →
  return_ t returndata =
    Ok (mkDFTemplate
          (commands t ++ zip_with local_assignment (PyDict.keys returndata) values
             ++ [action_block "control" "Return" [] "Default"])
          (closebracket t) (definedVars t)).
Proof.
  intros Hnodup Hconv. unfold return_, PyDict.keys in *.
  rewrite (set_locals_spec t returndata returndata values); [by rewrite app_assoc| |done].
  intros k raw Hin. by apply get_of_entry.
Qed.

Lemma return_assigns_then_returns_witness :
  return_ init [("result", RNum (NInt 3))] =
    Ok (mkDFTemplate
          [local_assignment "result" (num (NInt 3));
           action_block "control" "Return" [] "Default"]
          None ∅).
Proof.
  apply (return_assigns_then_returns init [("result", RNum (NInt 3))] [num (NInt 3)]).
  - apply (bool_decide_unpack _). vm_compute. exact I.
  - reflexivity.
Defined.

(** ** Defining a name in terms of itself *)

(** X5.  [define_] binds the name after its initial value was converted, so
    an initial value [^name] is read against the binding before the call:
    it raises [KeyError(name)] when the name is not bound yet, and otherwise
    assigns the old reference to the new variable before the name is
    bound again. *)
Theorem define_reads_old_binding (t : DFTemplate) (name scope : string) :
  (definedVars t !! name = None →
   define_ t name (backref name) scope true = Raise (KeyError name)) ∧
  (∀ old, definedVars t !! name = Some old →
          define_ t name (backref name) scope true =
            Ok (mkDFTemplate
                  (commands t ++ [action_block "set_var" "=" [var name scope; old] "Default"])
                  (closebracket t) (<[name := var name scope]> (definedVars t)))).
Proof.
  split.
  - intros H. unfold define_, setVariable. rewrite !convert_cons, convert_backref, H. done.
  - intros old H. unfold define_, setVariable. rewrite !convert_cons, convert_backref, H. done.
Qed.

Lemma define_reads_old_binding_witness :
  define_ init "x" (backref "x") "unsaved" true = Raise (KeyError "x") ∧
  define_ (mkDFTemplate [] None (<["x" := var "x" "saved"]> ∅)) "x" (backref "x") "local" true =
    Ok (mkDFTemplate
          ([] ++ [action_block "set_var" "=" [var "x" "local"; var "x" "saved"] "Default"])
          None (<["x" := var "x" "local"]> (<["x" := var "x" "saved"]> ∅))).
Proof.
  split.
  - apply (proj1 (define_reads_old_binding init "x" "unsaved")). reflexivity.
  - exact (proj2 (define_reads_old_binding
                    (mkDFTemplate [] None (<["x" := var "x" "saved"]> ∅)) "x" "local")
             (var "x" "saved") eq_refl).
Defined.

(** ** What a failing call leaves behind *)

Lemma set_locals_upto_agrees (t : DFTemplate) (parameters : list (string * Raw))
    (keys : list string) :
  set_locals t parameters keys =
  match set_locals_upto t parameters keys with
  | (t', None) => Ok t'
  | (_, Some e) => Raise e
  end.
Proof.
  revert t. induction keys as [|key keys IH]; simpl; intros t; [done|].
  destruct (PyDict.getitem parameters key) as [value|e]; simpl; [|done].
  destruct (setVariable t "=" [RVal (var key "local"); value]) as [t1|e]; simpl; [|done].
  apply IH.
Qed.

(** The model that keeps the template agrees with [callFunction]. *)
Lemma callFunction_upto_agrees (t : DFTemplate) (name : string)
    (parameters : list (string * Raw)) :
  callFunction t name parameters =
  match callFunction_upto t name parameters with
  | (t', None) => Ok t'
  | (_, Some e) => Raise e
  end.
Proof.
  unfold callFunction, callFunction_upto. destruct parameters as [|p parameters]; [done|].
  rewrite set_locals_upto_agrees.
  by destruct (set_locals_upto t (p :: parameters) (PyDict.keys (p :: parameters)))
    as [t' [e|]].
Qed.

Lemma set_locals_upto_stops (t : DFTemplate) (parameters : list (string * Raw))
    (entries rest : list (string * Raw)) (key : string) (raw : Raw)
    (values : list TypedValue) (e : Exn) :
  (∀ k r, (k, r) ∈ entries ++ [(key, raw)] → PyDict.get parameters k = Some r) →
  _convertDataTypes t entries.*2 = Ok values →
  convert_element t raw = Raise e →
  set_locals_upto t parameters ((entries ++ (key, raw) :: rest).*1) =
    (mkDFTemplate (commands t ++ zip_with local_assignment entries.*1 values)
       (closebracket t) (definedVars t), Some e).
Proof.
  revert t values.
  induction entries as [|[k r] entries IH]; intros t values Hget Hconv Hraw.
  - injection Hconv as <-. simpl. unfold PyDict.getitem.
    rewrite (Hget key raw) by (simpl; apply list_elem_of_here). simpl.
    unfold setVariable. rewrite !convert_cons. simpl. rewrite Hraw. simpl.
    rewrite app_nil_r. by destruct t.
  - rewrite fmap_cons, convert_cons in Hconv. simpl in Hconv.
    inv_bind Hconv. inv_bind Hconv. injection Hconv as <-.
    simpl. unfold PyDict.getitem.
    rewrite (Hget k r) by (simpl; apply list_elem_of_here). simpl.
    unfold setVariable. rewrite !convert_cons. simpl. rewrite Ha. simpl.
    rewrite (IH _ a0).
    + simpl. by rewrite <- app_assoc.
    + intros k' r' Hin. apply Hget. simpl. by apply list_elem_of_further.
    + rewrite <- Ha0. by apply convert_same_vars.
    + rewrite <- Hraw. by apply convert_element_same_vars.
Qed.

(** X6.  [callFunction] does not undo what it did when it raises: when the
    value of a parameter does not convert and the values before it do, the
    assignments of the parameters before it stay in the template, and the
    call-function block is not appended. *)
Theorem callFunction_keeps_partial_assignments (t : DFTemplate) (name : string)
    (entries rest : list (string * Raw)) (key : string) (raw : Raw)
    (values : list TypedValue) (e : Exn) :
  NoDup (PyDict.keys (entries ++ (key, raw) :: rest)) →
  _convertDataTypes t entries.*2 = Ok values →
  convert_element t raw = Raise e →
  callFunction t name (entries ++ (key, raw) :: rest) = Raise e ∧
  callFunction_upto t name (entries ++ (key, raw) :: rest) =
    (mkDFTemplate (commands t ++ zip_with local_assignment entries.*1 values)
       (closebracket t) (definedVars t), Some e).
Proof.
  intros Hnodup Hconv Hraw.
  assert (callFunction_upto t name (entries ++ (key, raw) :: rest) =
            (mkDFTemplate (commands t ++ zip_with local_assignment entries.*1 values)
               (closebracket t) (definedVars t), Some e)) as Hupto.
  { unfold callFunction_upto.
    destruct (entries ++ (key, raw) :: rest) as [|p parameters] eqn:Hp.
    { by destruct entries. }
    rewrite <- Hp in *. unfold PyDict.keys in *.
    rewrite (set_locals_upto_stops t _ entries rest key raw values e); [done| |done..].
    intros k r Hin. apply get_of_entry; [done|].
    apply elem_of_app in Hin as [Hin|Hin%list_elem_of_singleton].
    - apply elem_of_app. by left.
    - injection Hin as -> ->. apply elem_of_app. right. apply list_elem_of_here. }
  split; [|done]. by rewrite callFunction_upto_agrees, Hupto.
Qed.

Lemma callFunction_keeps_partial_assignments_witness :
  callFunction init "f" ([("a", RNum (NInt 1))] ++ ("b", RStr "") :: []) = Raise IndexError ∧
  callFunction_upto init "f" ([("a", RNum (NInt 1))] ++ ("b", RStr "") :: []) =
    (mkDFTemplate ([] ++ zip_with local_assignment [("a", RNum (NInt 1))].*1 [num (NInt 1)])
       None ∅, Some IndexError).
Proof.
  apply (callFunction_keeps_partial_assignments init "f" [("a", RNum (NInt 1))] []
           "b" (RStr "") [num (NInt 1)] IndexError).
  - apply (bool_decide_unpack _). vm_compute. exact I.
  - reflexivity.
  - reflexivity.
Defined.

(** ** Conversion of an argument list *)

(** X7.  [_convertDataTypes] converts element by element and keeps the
    order: it returns a list when every element converts, the list of the
    converted elements; it raises when some element does not convert, the
    exception of the first such element. *)
Theorem convert_elementwise (t : DFTemplate) (lst : list Raw) :
  (∀ values, _convertDataTypes t lst = Ok values ↔
             Forall2 (λ element v, convert_element t element = Ok v) lst values) ∧
  (∀ e, _convertDataTypes t lst = Raise e ↔
        ∃ pre element post values,
          lst = pre ++ element :: post ∧
          _convertDataTypes t pre = Ok values ∧
          convert_element t element = Raise e).
Proof.
  induction lst as [|element lst [IHok IHraise]].
  - split.
    + intros values. simpl. split.
      * intros [= <-]. constructor.
      * intros H. by apply Forall2_nil_inv_l in H as ->.
    + intros e. split; [done|]. intros (pre & el & post & values & H & _). by destruct pre.
  - split.
    + intros values. rewrite convert_cons. split.
      * intros H. inv_bind H. inv_bind H. injection H as <-.
        constructor; [done|]. by apply IHok.
      * intros H. apply Forall2_cons_inv_l in H as (v & values' & Hv & Hrest & ->).
        rewrite Hv. simpl. apply IHok in Hrest as ->. done.
    + intros e. rewrite convert_cons. split.
      * destruct (convert_element t element) as [v|e'] eqn:Hv; simpl.
        -- destruct (_convertDataTypes t lst) as [values|e'] eqn:Hrest; simpl; [done|].
           intros [= ->]. destruct (proj1 (IHraise e) eq_refl)
             as (pre & el & post & values & -> & Hpre & Hel).
           exists (element :: pre), el, post, (v :: values).
           split; [done|]. split; [|done]. by rewrite convert_cons, Hv, Hpre.
        -- intros [= ->]. by exists [], element, lst, [].
      * intros (pre & el & post & values & Heq & Hpre & Hel).
        destruct pre as [|p pre]; simpl in Heq; injection Heq as -> ->.
        -- by rewrite Hel.
        -- rewrite convert_cons in Hpre. inv_bind Hpre. inv_bind Hpre.
           rewrite Ha. simpl.
           assert (_convertDataTypes t (pre ++ el :: post) = Raise e) as ->; [|done].
           apply IHraise. by exists pre, el, post, a0.
Qed.

(** ** The data of the commands of a script *)

Ltac solve_plain_data :=
  split; [apply (bool_decide_unpack _); by vm_compute|];
  split; [apply not_in_keys; by vm_compute|];
  split; [apply not_in_keys; by vm_compute|];
  first [by intros [? [=]] | by (intros _; eexists)].

Lemma plain_data_action_block (block name : string) (args : list TypedValue)
    (target : string) :
  plain_data (action_block block name args target).
Proof. solve_plain_data. Qed.

Lemma plain_data_append (t : DFTemplate) (cmd : CodeBlock) :
  Forall plain_data (commands t) → plain_data cmd →
  Forall plain_data (commands (append_command t cmd)).
Proof. intros Ht Hcmd. simpl. apply Forall_app. by split; [|constructor]. Qed.

Lemma plain_data_openbracket (t : DFTemplate) (btype : string) :
  Forall plain_data (commands t) →
  Forall plain_data (commands (_openbracket t btype)).
Proof.
  intros Ht. simpl. apply Forall_app. split; [done|]. constructor; [|done].
  solve_plain_data.
Qed.

Lemma set_locals_plain_data (t t' : DFTemplate) (parameters : list (string * Raw))
    (keys : list string) :
  set_locals t parameters keys = Ok t' →
  Forall plain_data (commands t) → Forall plain_data (commands t').
Proof.
  revert t. induction keys as [|key keys IH]; simpl; intros t H Ht.
  - by injection H as <-.
  - inv_bind H. unfold setVariable in H. inv_bind H. inv_bind Ha0.
    injection Ha0 as <-. apply (IH _ H). apply plain_data_append; [done|].
    apply plain_data_action_block.
Qed.

Lemma exec_plain_data (t t' : DFTemplate) (c : Call) :
  exec t c = Ok t' →
  Forall plain_data (commands t) → Forall plain_data (commands t').
Proof.
  intros H Ht.
  destruct c; simpl in H;
    try (injection H as <-);
    try (inv_bind H; injection H as <-);
    try (apply plain_data_openbracket);
    try (apply plain_data_append; [done|]);
    try apply plain_data_action_block;
    try solve_plain_data;
    try done.
  - apply plain_data_append; [|solve_plain_data].
    destruct parameters; [by injection Ha as <-|].
    by apply (set_locals_plain_data _ _ _ _ Ha).
  - destruct subAction; solve_plain_data.
  - apply plain_data_append; [|apply plain_data_action_block].
    by apply (set_locals_plain_data _ _ _ _ Ha).
  - simpl. destruct createSetVar; [|by injection Ha as <-].
    unfold setVariable in Ha. inv_bind Ha. injection Ha as <-.
    apply plain_data_append; [done|]. apply plain_data_action_block.
Qed.

Lemma script_command_plain_data (t : DFTemplate) (calls : list Call) (cmd : CodeBlock) :
  run init calls = Ok t → cmd ∈ commands t → plain_data cmd.
Proof.
  intros Hrun Hcmd.
  assert (∀ t0 t1, run t0 calls = Ok t1 → Forall plain_data (commands t0) →
                   Forall plain_data (commands t1)) as Hall.
  { clear. induction calls as [|c calls IH]; simpl; intros t0 t1 H Ht0.
    - by injection H as <-.
    - inv_bind H. apply (IH _ _ H). by apply (exec_plain_data _ _ _ Ha). }
  assert (Forall plain_data (commands t)) as Ht by (apply (Hall _ _ Hrun); constructor).
  rewrite Forall_forall in Ht. by apply Ht.
Qed.

(** ** The entries of an assembled block *)

Lemma set_fresh {V : Type} (d : list (string * V)) (k : string) (v : V) :
  k ∉ PyDict.keys d → PyDict.set d k v = d ++ [(k, v)].
Proof.
  unfold PyDict.keys. induction d as [|[k' v'] d IH]; simpl; intros Hk; [done|].
  rewrite decide_False; [|intros ->; apply Hk, list_elem_of_here].
  rewrite IH; [done|]. intros Hin. apply Hk. by apply list_elem_of_further.
Qed.

Lemma set_same {V : Type} (d : list (string * V)) (k : string) (v : V) :
  PyDict.get d k = Some v → PyDict.set d k v = d.
Proof.
  induction d as [|[k' v'] d IH]; simpl; [done|].
  destruct (decide (k' = k)) as [->|Hne]; [by intros [= ->]|].
  intros H. by rewrite IH.
Qed.

Lemma get_of_data (data : list (string * option string)) (k : string) :
  PyDict.get (prod_map id of_data <$> data) k = of_data <$> PyDict.get data k.
Proof.
  induction data as [|[k' v'] data IH]; simpl; [done|].
  by destruct (decide (k' = k)).
Qed.

Lemma keys_of_data (data : list (string * option string)) :
  PyDict.keys (prod_map id of_data <$> data) = PyDict.keys data.
Proof.
  unfold PyDict.keys. rewrite <- list_fmap_compose. apply list_fmap_ext.
  by intros _ [k v] _.
Qed.

Lemma copy_keys_shape (data pre suf : list (string * option string)) (items : list Item) :
  data = pre ++ suf →
  NoDup (PyDict.keys data) →
  "args" ∉ PyDict.keys data →
  copy_keys data (PyDict.keys suf) (("args", VArgs items) :: (prod_map id of_data <$> pre))
  = Ok (("args", VArgs items) :: (prod_map id of_data <$> data)).
Proof.
  revert pre. induction suf as [|[k v] suf IH]; intros pre Hdata Hnodup Hargs.
  - rewrite app_nil_r in Hdata. by subst.
  - simpl. unfold PyDict.getitem.
    rewrite (get_of_entry data k v Hnodup) by (subst; apply elem_of_app; right; left).
    simpl. destruct (decide ("args" = k)) as [<-|Hne].
    { exfalso. apply Hargs. subst. unfold PyDict.keys. rewrite fmap_app.
      apply elem_of_app. right. apply list_elem_of_here. }
    rewrite set_fresh.
    + rewrite <- (IH (pre ++ [(k, v)])); [|by rewrite <- app_assoc|done..].
      by rewrite fmap_app.
    + rewrite keys_of_data. subst. unfold PyDict.keys in *.
      rewrite fmap_app in Hnodup. apply NoDup_app in Hnodup as (_ & Hdisj & _).
      intros Hin. apply (Hdisj k Hin). apply list_elem_of_here.
Qed.

Lemma add_items_head (args : list TypedValue) (slot : nat) (items : list Item)
    (rest : Block) :
  add_items args slot (("args", VArgs items) :: rest)
  = Ok (("args", VArgs (items ++ render args slot)) :: rest).
Proof.
  revert slot items. induction args as [|arg args IH]; intros slot items; simpl.
  - by rewrite app_nil_r.
  - destruct (decide (type arg ∈ VARIABLE_TYPES)); simpl.
    + rewrite IH. by rewrite <- app_assoc.
    + apply IH.
Qed.

Lemma attach_tags_head (items : list Item) (rest : Block) (tags : option (list Item)) :
  attach_tags (("args", VArgs items) :: rest) tags
  = Ok (("args", VArgs (with_tags items tags)) :: rest).
Proof.
  unfold attach_tags, with_tags. destruct tags as [tags|]; [|done]. simpl.
  by destruct (decide (27 < length items)).
Qed.

Section BlockShape.
Variable TAGDATA : gmap string (gmap string (list Item)).
Variables TAGDATA_KEYS TAGDATA_EXTRAS_KEYS : gset string.
Variable get_close_matches : string → list string → list string.

Lemma assemble_block_entries_plain (cmd : CodeBlock) :
  plain_data cmd →
  assemble_block TAGDATA TAGDATA_KEYS TAGDATA_EXTRAS_KEYS get_close_matches cmd =
  (tags ← lookup_tags TAGDATA TAGDATA_KEYS TAGDATA_EXTRAS_KEYS get_close_matches cmd;
   mret (block_of cmd tags)).
Proof.
  intros (Hnodup & Hargs & Htarget & Htype). unfold assemble_block.
  pose proof (copy_keys_shape (data cmd) [] (data cmd) [] eq_refl Hnodup Hargs) as Hcopy.
  change (prod_map id of_data <$> []) with (@nil (string * Value)) in Hcopy.
  rewrite Hcopy, Out_lift_bind.
  assert (copy_bracket_data cmd (("args", VArgs []) :: (prod_map id of_data <$> data cmd))
          = Ok (("args", VArgs []) :: (prod_map id of_data <$> data cmd))) as ->.
  { unfold copy_bracket_data.
    destruct (PyDict.get (data cmd) "direct") as [direct|] eqn:Hdirect; simpl; [|done].
    destruct direct as [direct|]; simpl; [|done].
    destruct Htype as [type Htype]; [done|].
    unfold PyDict.getitem. rewrite Hdirect, Htype. simpl.
    rewrite (set_same _ "direct") by (by rewrite get_of_data, Hdirect).
    by rewrite (set_same _ "type") by (by rewrite get_of_data, Htype). }
  rewrite Out_lift_bind.
  assert (add_target cmd (("args", VArgs []) :: (prod_map id of_data <$> data cmd))
          = ("args", VArgs []) :: (prod_map id of_data <$> data cmd) ++ target_entry cmd) as ->.
  { unfold add_target, target_entry. repeat case_decide; rewrite ?app_nil_r; try done.
    simpl. f_equal. apply set_fresh. by rewrite keys_of_data. }
  assert (add_args cmd
            (("args", VArgs []) :: (prod_map id of_data <$> data cmd) ++ target_entry cmd)
          = Ok (("args", VArgs (own_items cmd))
                  :: (prod_map id of_data <$> data cmd) ++ target_entry cmd)) as ->.
  { unfold add_args, own_items. destruct (args cmd); [done|]. apply add_items_head. }
  rewrite Out_lift_bind.
  destruct (lookup_tags _ _ _ _ cmd) as [o [tags|e]]; [|done].
  unfold mbind, Out_bind, lift, mret, Out_ret. by rewrite attach_tags_head.
Qed.

(** X8.  The block assembled for a command that a builder method created
    is, entry by entry: the items under ['args'], then the entries of the
    data of the command in their order with their values, then a ['target']
    entry, which is written only when the block is no event and the target
    is not ['Default']. *)
Theorem assemble_block_entries (t : DFTemplate) (calls : list Call) (cmd : CodeBlock) :
  run init calls = Ok t →
  cmd ∈ commands t →
  assemble_block TAGDATA TAGDATA_KEYS TAGDATA_EXTRAS_KEYS get_close_matches cmd =
  (tags ← lookup_tags TAGDATA TAGDATA_KEYS TAGDATA_EXTRAS_KEYS get_close_matches cmd;
   mret (block_of cmd tags)).
Proof.
  intros Hrun Hcmd. apply assemble_block_entries_plain.
  by apply (script_command_plain_data t calls).
Qed.
End BlockShape.

Lemma assemble_block_entries_witness :
  assemble_block example_file (dom example_file) ∅ no_close_matches
    (action_block "player_action" "SendMessage" [text "hello"] "Selection") =
  (tags ← lookup_tags example_file (dom example_file) ∅ no_close_matches
            (action_block "player_action" "SendMessage" [text "hello"] "Selection");
   mret (block_of (action_block "player_action" "SendMessage" [text "hello"] "Selection")
           tags)).
Proof.
  apply (assemble_block_entries example_file (dom example_file) ∅ no_close_matches
           (mkDFTemplate
              [action_block "player_action" "SendMessage" [text "hello"] "Selection"]
              None ∅)
           [CPlayerAction "SendMessage" [RStr "hello"] "Selection"]).
  - reflexivity.
  - apply list_elem_of_here.
Defined.

(** The block of the witness, entry by entry. *)
Example block_of_send_message :
  block_of (action_block "player_action" "SendMessage" [text "hello"] "Selection")
    (Some [Tag "tag"])
  = [("args", VArgs [Rendered (text "hello") 0; Tag "tag"]); ("id", VStr "block");
     ("block", VStr "player_action"); ("action", VStr "SendMessage");
     ("target", VStr "Selection")].
Proof. reflexivity. Qed.

(** ** Slots of arguments that are skipped *)

(** The items an argument list renders to are the arguments of a
    recognized type, each at the slot of its own position. *)
Lemma render_positions (args : list TypedValue) (slot : nat) :
  (∀ item, item ∈ render args slot ↔
           ∃ i arg, args !! i = Some arg ∧ type arg ∈ VARIABLE_TYPES ∧
                    item = Rendered arg (slot + i)) ∧
  length (render args slot) = length (filter (λ arg, type arg ∈ VARIABLE_TYPES) args).
Proof.
  revert slot. induction args as [|arg args IH]; intros slot.
  - split; [|done]. intros item. simpl. rewrite elem_of_nil.
    split; [done|]. by intros (i & a & [=] & _).
  - destruct (IH (S slot)) as [IHin IHlen]. split.
    + intros item. simpl. rewrite elem_of_app, IHin. split.
      * intros [Hin|(i & a & Ha & Hty & ->)].
        -- destruct (decide (type arg ∈ VARIABLE_TYPES)) as [Hty|]; [|by apply elem_of_nil in Hin].
           apply list_elem_of_singleton in Hin as ->.
           exists 0, arg. by rewrite Nat.add_0_r.
        -- exists (S i), a. repeat split; [done..|]. unfold format. f_equal. lia.
      * intros ([|i] & a & Ha & Hty & ->).
        -- injection Ha as ->. left. rewrite decide_True by done.
           rewrite Nat.add_0_r. apply list_elem_of_here.
        -- right. exists i, a. repeat split; [done..|]. f_equal. lia.
    + simpl. rewrite length_app, IHlen, filter_cons.
      by destruct (decide (type arg ∈ VARIABLE_TYPES)).
Qed.

Section SkippedArguments.
Variable TAGDATA : gmap string (gmap string (list Item)).
Variables TAGDATA_KEYS TAGDATA_EXTRAS_KEYS : gset string.
Variable get_close_matches : string → list string → list string.

(** X9.  The slot counter of [build] counts every argument, rendered or
    not.  For a command that a builder method created, the loop over its
    arguments (lines 114-123) adds to the items of the block exactly the
    arguments of a recognized type, each at the slot of its own position in
    the argument list, so an argument of another type is left out and leaves
    its slot empty; the items list of the assembled block is made of these
    items, cut and followed by the tags when tags were found. *)
Theorem render_keeps_positions (t : DFTemplate) (calls : list Call) (cmd : CodeBlock)
    (args0 : list TypedValue) (rest : list (list TypedValue))
    (tags : option (list Item)) (o : list string) :
  run init calls = Ok t →
  cmd ∈ commands t →
  args cmd = args0 :: rest →
  lookup_tags TAGDATA TAGDATA_KEYS TAGDATA_EXTRAS_KEYS get_close_matches cmd = (o, Ok tags) →
  ∃ rendered,
    (∀ item, item ∈ rendered ↔
             ∃ i arg, args0 !! i = Some arg ∧ type arg ∈ VARIABLE_TYPES ∧
                      item = Rendered arg i) ∧
    length rendered = length (filter (λ arg, type arg ∈ VARIABLE_TYPES) args0) ∧
    (∀ block items, PyDict.get block "args" = Some (VArgs items) →
                    ∃ block', add_items args0 0 block = Ok block' ∧
                              add_args cmd block = Ok block' ∧
                              items_of block' = Ok (items ++ rendered)) ∧
    block_items TAGDATA TAGDATA_KEYS TAGDATA_EXTRAS_KEYS get_close_matches cmd =
      (o, Ok match tags with
             | None => rendered
             | Some tagList =>
                 (if decide (27 < length rendered)
                  then slice_to rendered (26 - Z.of_nat (length tagList))
                  else rendered) ++ tagList
             end).
Proof.
  intros Hrun Hcmd Hargs Htags.
  destruct (render_positions args0 0) as [Hin Hlen].
  exists (render args0 0). split; [|split; [done|split]].
  - intros item. rewrite Hin. by setoid_rewrite Nat.add_0_l.
  - intros block items Hblock.
    destruct (add_items_args args0 0 block items Hblock) as (block' & Hadd & Hget).
    exists block'. split; [done|]. split; [by unfold add_args; rewrite Hargs|].
    by apply items_of_args.
  - rewrite (block_items_spec _ _ _ _ cmd (script_command_builder_made _ _ _ Hrun Hcmd)), Htags.
    unfold mbind, Out_bind, mret, Out_ret. rewrite app_nil_r.
    unfold with_tags, own_items. by rewrite Hargs.
Qed.
End SkippedArguments.

Lemma render_keeps_positions_witness :
  ∃ rendered,
    (∀ item, item ∈ rendered ↔
             ∃ i arg, [mkTypedValue "other" (POther "x"); text "a"] !! i = Some arg ∧
                      type arg ∈ VARIABLE_TYPES ∧ item = Rendered arg i) ∧
    length rendered
    = length (filter (λ arg, type arg ∈ VARIABLE_TYPES)
                [mkTypedValue "other" (POther "x"); text "a"]) ∧
    (∀ block items, PyDict.get block "args" = Some (VArgs items) →
                    ∃ block',
                      add_items [mkTypedValue "other" (POther "x"); text "a"] 0 block
                      = Ok block' ∧
                      add_args
                        (action_block "player_action" "SendMessage"
                           [mkTypedValue "other" (POther "x"); text "a"] "Default") block
                      = Ok block' ∧
                      items_of block' = Ok (items ++ rendered)) ∧
    block_items example_file (dom example_file) ∅ no_close_matches
      (action_block "player_action" "SendMessage"
         [mkTypedValue "other" (POther "x"); text "a"] "Default")
    = ([], Ok ((if decide (27 < length rendered)
                then slice_to rendered (26 - Z.of_nat (length [Tag "tag"]))
                else rendered) ++ [Tag "tag"])).
Proof.
  apply (render_keeps_positions example_file (dom example_file) ∅ no_close_matches
           (mkDFTemplate
              [action_block "player_action" "SendMessage"
                 [mkTypedValue "other" (POther "x"); text "a"] "Default"]
              None ∅)
           [CPlayerAction "SendMessage"
              [RVal (mkTypedValue "other" (POther "x")); RStr "a"] "Default"]
           _ _ [] (Some [Tag "tag"]) []).
  - reflexivity.
  - apply list_elem_of_here.
  - reflexivity.
  - vm_compute. reflexivity.
Defined.

(** The items of the block of the witness: the text at slot 1, slot 0 left
    empty, then the tag. *)
Example skipped_argument_items :
  block_items example_file (dom example_file) ∅ no_close_matches
    (action_block "player_action" "SendMessage"
       [mkTypedValue "other" (POther "x"); text "a"] "Default")
  = ([], Ok [Rendered (text "a") 1; Tag "tag"]).
Proof. vm_compute. reflexivity. Qed.

(** ** Looking up tags *)

Section Lookup.
Variable tagData : gmap string (gmap string (list Item)).
Variable extras : gmap string (list Item).
Variable get_close_matches : string → list string → list string.

(** X10.  With the tables read from a schema file, looking up the tags of
    a command raises nothing.  The tags of the ['extras'] entry for the
    category come first, whatever the name of the command; otherwise the
    tags are those of the name in the table of the category; a name that
    the table does not have gives no tags and exactly one warning; a
    category the file does not have gives no tags and no warning. *)
Theorem lookup_tags_of_file (cmd : CodeBlock) (category : string) :
  tagData !! "extras" = Some extras →
  mjoin (PyDict.get (data cmd) "block") = Some category →
  (_loadCodeblockData (Some tagData)).2 = Ok (tagData, dom tagData, dom extras) ∧
  (∀ tags, extras !! category = Some tags →
           lookup_tags tagData (dom tagData) (dom extras) get_close_matches cmd
           = ([], Ok (Some tags))) ∧
  (∀ table tags, extras !! category = None → tagData !! category = Some table →
                 table !! name cmd = Some tags →
                 lookup_tags tagData (dom tagData) (dom extras) get_close_matches cmd
                 = ([], Ok (Some tags))) ∧
  (∀ table, extras !! category = None → tagData !! category = Some table →
            table !! name cmd = None →
            ∃ warning,
              lookup_tags tagData (dom tagData) (dom extras) get_close_matches cmd
              = ([warning], Ok None)) ∧
  (extras !! category = None → tagData !! category = None →
   lookup_tags tagData (dom tagData) (dom extras) get_close_matches cmd = ([], Ok None)).
Proof.
  intros Hextras Hcategory.
  split. { unfold _loadCodeblockData, lookup_item. by rewrite Hextras. }
  unfold lookup_tags. rewrite Hcategory.
  split; [|split; [|split]].
  - intros tags Htags. rewrite decide_True by (apply elem_of_dom; by eexists).
    unfold lookup_item. by rewrite Hextras, Out_lift_bind, Htags.
  - intros table tags Hno Htable Htags.
    rewrite decide_False by (by rewrite not_elem_of_dom).
    rewrite decide_True by (apply elem_of_dom; by eexists).
    unfold lookup_item. by rewrite Htable, Out_lift_bind, Htags.
  - intros table Hno Htable Htags.
    rewrite decide_False by (by rewrite not_elem_of_dom).
    rewrite decide_True by (apply elem_of_dom; by eexists).
    unfold lookup_item. rewrite Htable, Out_lift_bind, Htags.
    destruct (get_close_matches _ _); by eexists.
  - intros Hno Hnone.
    rewrite decide_False by (by rewrite not_elem_of_dom).
    by rewrite decide_False by (by rewrite not_elem_of_dom).
Qed.
End Lookup.

Lemma lookup_tags_of_file_witness :
  (_loadCodeblockData (Some example_extras_file)).2 =
    Ok (example_extras_file, dom example_extras_file,
        dom (<["else" := [Tag "else-tag"]]> (∅ : gmap string (list Item)))) ∧
  lookup_tags example_extras_file (dom example_extras_file)
    (dom (<["else" := [Tag "else-tag"]]> (∅ : gmap string (list Item)))) no_close_matches
    (mkCodeBlock "else" [] "Default" [("id", Some "block"); ("block", Some "else")])
  = ([], Ok (Some [Tag "else-tag"])).
Proof.
  destruct (lookup_tags_of_file example_extras_file (<["else" := [Tag "else-tag"]]> ∅)
              no_close_matches
              (mkCodeBlock "else" [] "Default" [("id", Some "block"); ("block", Some "else")])
              "else" eq_refl eq_refl) as (Hload & Hextras & _).
  split; [exact Hload|]. apply Hextras. reflexivity.
Defined.

(** ** The notices of build *)

Lemma template_name_output (mainDict : Document) (o : list string) (r : result Value) :
  template_name mainDict = (o, r) → o = [] ∨ o = [starter_warning].
Proof.
  unfold template_name. destruct (blocks mainDict) as [|block0 ?]; [by intros [= <- _]; left|].
  rewrite Out_lift_bind. unfold PyDict.getitem.
  destruct (PyDict.get block0 "block") as [category|]; [|by intros [= <- _]; left].
  rewrite Out_lift_bind.
  destruct category as [|c|items].
  - rewrite Out_lift_bind. intros [= <- _]. by right.
  - rewrite Out_lift_bind.
    destruct (bool_decide (c ∈ TEMPLATE_STARTERS)); simpl; [|by intros [= <- _]; right].
    destruct (PyDict.get block0 "action") as [[|a|?]|]; by intros [= <- _]; left.
  - intros [= <- _]. by left.
Qed.

Section Notices.
Variable TAGDATA : gmap string (gmap string (list Item)).
Variables TAGDATA_KEYS TAGDATA_EXTRAS_KEYS : gset string.
Variable get_close_matches : string → list string → list string.
Variable str_document : Document → string.
Variable gzip_compress : list byte → list byte.

Abbreviation assemble_blocks'' :=
  (assemble_blocks TAGDATA TAGDATA_KEYS TAGDATA_EXTRAS_KEYS get_close_matches).
Abbreviation build'' :=
  (build TAGDATA TAGDATA_KEYS TAGDATA_EXTRAS_KEYS get_close_matches str_document
     gzip_compress).

Lemma build_after_assembly (t : DFTemplate) (o : list string) (blocks : list Block) :
  assemble_blocks'' (commands t) = (o, Ok blocks) →
  build'' t =
  (o ++ success_notice :: (template_name (mkDocument blocks)).1,
   match (template_name (mkDocument blocks)).2 with
   | Ok templateName => Ok (_compress gzip_compress (str_document (mkDocument blocks)),
                            templateName)
   | Raise e => Raise e
   end).
Proof.
  intros H. unfold build. rewrite H. unfold mbind at 1. unfold Out_bind.
  unfold print. unfold mbind at 1. unfold Out_bind.
  destruct (template_name (mkDocument blocks)) as [o2 [templateName|e]]; simpl.
  - by rewrite app_nil_r.
  - done.
Qed.

(** X11.  The output of [build]: when assembling a block raises, [build]
    raises the same exception after the warnings printed so far, without
    the success notice; when all blocks are assembled, [build] prints the
    warnings of the blocks, then the success notice, and then at most the
    warning about the first block, whether or not naming the template
    raises afterwards. *)
Theorem build_notices (t : DFTemplate) :
  (∀ o e, assemble_blocks'' (commands t) = (o, Raise e) → build'' t = (o, Raise e)) ∧
  (∀ o blocks, assemble_blocks'' (commands t) = (o, Ok blocks) →
               ∃ o' r, build'' t = (o ++ success_notice :: o', r) ∧
                       (o' = [] ∨ o' = [starter_warning])).
Proof.
  split.
  - intros o e H. unfold build. by rewrite H.
  - intros o blocks H. rewrite (build_after_assembly t o blocks H).
    eexists _, _. split; [reflexivity|].
    apply (template_name_output (mkDocument blocks) _ (template_name (mkDocument blocks)).2).
    by destruct (template_name (mkDocument blocks)).
Qed.

(** X12.  The name [build] returns, read off the first command of the
    template: category and action joined by an underscore for an entry
    point with an action (the events), the data string for an entry point
    without an action (function and process), and "Unnamed" after the
    warning for a first command of another category. *)
Theorem build_names_template (t : DFTemplate) (cmd : CodeBlock) (rest : list CodeBlock)
    (category : string) (o : list string) (blocks : list Block) :
  commands t = cmd :: rest →
  PyDict.get (data cmd) "block" = Some (Some category) →
  assemble_blocks'' (commands t) = (o, Ok blocks) →
  (category ∈ TEMPLATE_STARTERS →
   ∀ action, PyDict.get (data cmd) "action" = Some (Some action) →
             build'' t = (o ++ [success_notice],
                          Ok (_compress gzip_compress (str_document (mkDocument blocks)),
                              VStr (category +:+ "_" +:+ action)))) ∧
  (category ∈ TEMPLATE_STARTERS →
   PyDict.get (data cmd) "action" = None →
   ∀ name, PyDict.get (data cmd) "data" = Some name →
           build'' t = (o ++ [success_notice],
                        Ok (_compress gzip_compress (str_document (mkDocument blocks)),
                            of_data name))) ∧
  (category ∉ TEMPLATE_STARTERS →
   build'' t = (o ++ [success_notice; starter_warning],
                Ok (_compress gzip_compress (str_document (mkDocument blocks)),
                    VStr "Unnamed"))).
Proof.
  intros Hcmds Hcategory Hblocks.
  rewrite (build_after_assembly t o blocks Hblocks).
  rewrite Hcmds in Hblocks. simpl in Hblocks.
  apply Out_bind_Ok in Hblocks as (o1 & block & o1' & Hblock & H & _).
  apply Out_bind_Ok in H as (o2 & blocks' & o2' & _ & [= <- <-] & _).
  assert (∀ k, k ∉ ["args"; "direct"; "type"; "target"] →
               PyDict.get block k = of_data <$> PyDict.get (data cmd) k) as Hget.
  { intros k Hk. by apply (assemble_block_get _ _ _ _ _ _ _ _ Hblock). }
  assert (PyDict.get block "block" = Some (VStr category)) as Hblockkey.
  { rewrite Hget, Hcategory; [done|]. by apply not_in_keys; vm_compute. }
  destruct (template_name_rules block blocks' category Hblockkey)
    as (Haction & Hnoaction & Hother).
  split; [|split].
  - intros Hstarter action Ha. rewrite (Haction Hstarter action); [done|].
    rewrite Hget, Ha; [done|]. by apply not_in_keys; vm_compute.
  - intros Hstarter Ha name Hd. rewrite (Hnoaction Hstarter) with (name := of_data name).
    + done.
    + rewrite Hget, Ha; [done|]. by apply not_in_keys; vm_compute.
    + rewrite Hget, Hd; [done|]. by apply not_in_keys; vm_compute.
  - intros Hstarter. by rewrite (Hother Hstarter).
Qed.
End Notices.

Lemma build_notices_witness :
  ∃ o' r,
    build example_file (dom example_file) ∅ no_close_matches (λ _, "doc") (λ bs, bs)
      (append_command init (call_block "f"))
    = ([] ++ success_notice :: o', r) ∧ (o' = [] ∨ o' = [starter_warning]).
Proof.
  apply (proj2 (build_notices example_file (dom example_file) ∅ no_close_matches
                  (λ _, "doc") (λ bs, bs) (append_command init (call_block "f")))
           [] [[("args", VArgs []); ("id", VStr "block"); ("block", VStr "call_func");
                ("data", VStr "f")]]).
  by vm_compute.
Defined.

Lemma build_names_template_witness :
  build example_file (dom example_file) ∅ no_close_matches (λ _, "doc") (λ bs, bs)
    (function init "add")
  = ([] ++ [success_notice],
     Ok (_compress (λ bs, bs)
           ((λ _, "doc")
              (mkDocument [[("args", VArgs []); ("id", VStr "block"); ("block", VStr "func");
                            ("data", VStr "add")]])),
         of_data (Some "add"))).
Proof.
  refine (proj1 (proj2 (build_names_template example_file (dom example_file) ∅
                          no_close_matches (λ _, "doc") (λ bs, bs) (function init "add")
                          _ [] "func" [] _ eq_refl eq_refl _)) _ eq_refl (Some "add") eq_refl).
  - reflexivity.
  - by vm_compute.
Defined.

(** ** Without a schema file *)

(** X13.  Without the schema file the module loads with a warning and empty
    tables, and then [build] attaches no tags, prints no warning about a
    name and cuts no items list: the items of every block are the rendered
    arguments of its command, however many they are. *)
Theorem no_schema_file_no_tags (t : DFTemplate) (calls : list Call) (cmd : CodeBlock)
    (get_close_matches : string → list string → list string) :
  run init calls = Ok t →
  cmd ∈ commands t →
  (_loadCodeblockData None).2 = Ok (∅, ∅, ∅) ∧
  length (_loadCodeblockData None).1 = 1 ∧
  lookup_tags ∅ ∅ ∅ get_close_matches cmd = ([], Ok None) ∧
  block_items ∅ ∅ ∅ get_close_matches cmd = ([], Ok (own_items cmd)).
Proof.
  intros Hrun Hcmd.
  assert (lookup_tags ∅ ∅ ∅ get_close_matches cmd = ([], Ok None)) as Hlookup.
  { unfold lookup_tags. destruct (mjoin (PyDict.get (data cmd) "block")); [|done].
    by rewrite !decide_False by apply not_elem_of_empty. }
  repeat split; [done|].
  rewrite (block_items_spec _ _ _ _ cmd (script_command_builder_made _ _ _ Hrun Hcmd)).
  by rewrite Hlookup.
Qed.

Lemma no_schema_file_no_tags_witness :
  (_loadCodeblockData None).2 = Ok (∅, ∅, ∅) ∧
  length (_loadCodeblockData None).1 = 1 ∧
  lookup_tags ∅ ∅ ∅ no_close_matches (send_message 30) = ([], Ok None) ∧
  block_items ∅ ∅ ∅ no_close_matches (send_message 30) = ([], Ok (own_items (send_message 30))).
Proof.
  apply (no_schema_file_no_tags (mkDFTemplate [send_message 30] None ∅)
           [CPlayerAction "SendMessage" (replicate 30 (RStr "a")) "Default"]).
  - reflexivity.
  - apply list_elem_of_here.
Defined.

(** ** More than 26 tags *)

Section ManyTags.
Variable TAGDATA : gmap string (gmap string (list Item)).
Variables TAGDATA_KEYS TAGDATA_EXTRAS_KEYS : gset string.
Variable get_close_matches : string → list string → list string.

(** X14.  When the schema has more than 26 tags for a block with more than
    27 rendered items, the bound [26 - len(tags)] of the slice is negative
    and counts from the end: the items lose only their last
    [len(tags) - 26] entries (all of them when there are no more), and the
    final list, items and tags, is longer than 27. *)
Theorem negative_slice_keeps_items (t : DFTemplate) (calls : list Call) (cmd : CodeBlock)
    (tags : list Item) (o : list string) :
  run init calls = Ok t →
  cmd ∈ commands t →
  lookup_tags TAGDATA TAGDATA_KEYS TAGDATA_EXTRAS_KEYS get_close_matches cmd
  = (o, Ok (Some tags)) →
  27 < length (own_items cmd) →
  26 < length tags →
  block_items TAGDATA TAGDATA_KEYS TAGDATA_EXTRAS_KEYS get_close_matches cmd
  = (o, Ok (take (length (own_items cmd) - (length tags - 26)) (own_items cmd) ++ tags)) ∧
  27 < length (take (length (own_items cmd) - (length tags - 26)) (own_items cmd) ++ tags).
Proof.
  intros Hrun Hcmd Htags Hitems Hmany.
  rewrite (block_items_spec _ _ _ _ cmd (script_command_builder_made _ _ _ Hrun Hcmd)), Htags.
  unfold mbind, Out_bind, mret, Out_ret. rewrite app_nil_r.
  unfold with_tags, slice_to. rewrite decide_True by done.
  rewrite decide_False by lia.
  replace (Z.to_nat (Z.of_nat (length (own_items cmd)) + (26 - Z.of_nat (length tags))))
    with (length (own_items cmd) - (length tags - 26)) by lia.
  split; [done|]. rewrite length_app, length_take. lia.
Qed.
End ManyTags.

Lemma negative_slice_keeps_items_witness :
  block_items many_tags_file (dom many_tags_file) ∅ no_close_matches (send_message 28)
  = ([], Ok (take (length (own_items (send_message 28)) - (length (replicate 27 (Tag "tag")) - 26))
               (own_items (send_message 28)) ++ replicate 27 (Tag "tag"))) ∧
  27 < length (take (length (own_items (send_message 28))
                     - (length (replicate 27 (Tag "tag")) - 26))
                 (own_items (send_message 28)) ++ replicate 27 (Tag "tag")).
Proof.
  apply (negative_slice_keeps_items many_tags_file (dom many_tags_file) ∅ no_close_matches
           (mkDFTemplate [send_message 28] None ∅)
           [CPlayerAction "SendMessage" (replicate 28 (RStr "a")) "Default"]).
  - reflexivity.
  - apply list_elem_of_here.
  - vm_compute. reflexivity.
  - vm_compute. lia.
  - vm_compute. lia.
Defined.

(** ** Assembling blocks one by one *)

Section Blocks.
Variable TAGDATA : gmap string (gmap string (list Item)).
Variables TAGDATA_KEYS TAGDATA_EXTRAS_KEYS : gset string.
Variable get_close_matches : string → list string → list string.

Abbreviation assemble_blocks3 :=
  (assemble_blocks TAGDATA TAGDATA_KEYS TAGDATA_EXTRAS_KEYS get_close_matches).

(** X15.  Blocks are assembled independently and in order: the blocks and
    the warnings of two command lists joined are the blocks and the warnings
    of the first list followed by those of the second, and an exception in
    the first list keeps the second from being looked at. *)
Theorem assemble_blocks_app (cmds1 cmds2 : list CodeBlock) :
  assemble_blocks3 (cmds1 ++ cmds2) =
  match assemble_blocks3 cmds1 with
  | (o1, Ok blocks1) =>
      match assemble_blocks3 cmds2 with
      | (o2, Ok blocks2) => (o1 ++ o2, Ok (blocks1 ++ blocks2))
      | (o2, Raise e) => (o1 ++ o2, Raise e)
      end
  | (o1, Raise e) => (o1, Raise e)
  end.
Proof.
  induction cmds1 as [|cmd cmds1 IH]; simpl.
  - by destruct (assemble_blocks3 cmds2) as [o2 [blocks2|e]].
  - destruct (assemble_block _ _ _ _ cmd) as [o [block|e]]; [|done].
    unfold mbind at 1 3. unfold Out_bind. rewrite IH.
    destruct (assemble_blocks3 cmds1) as [o1 [blocks1|e]]; simpl.
    + destruct (assemble_blocks3 cmds2) as [o2 [blocks2|e]]; simpl.
      * by rewrite !app_nil_r, !app_assoc.
      * by rewrite ?app_nil_r, !app_assoc.
    + by rewrite ?app_nil_r.
Qed.
End Blocks.

(** ** The encoded string *)

Lemma b64encode_length (bs : list byte) :
  length (Base64.b64encode bs) = 4 * ((length bs + 2) / 3).
Proof.
  induction bs as [|a|a b|a b c rest IH] using list_ind_by_three; try done.
  cbn [Base64.b64encode map app length]. cbn zeta. rewrite IH.
  replace (S (S (S (length rest))) + 2) with (length rest + 2 + 1 * 3) by lia.
  rewrite Nat.div_add by done. lia.
Qed.

Lemma string_of_list_byte_length (bs : list byte) :
  String.length (String.string_of_list_byte bs) = length bs.
Proof.
  unfold String.string_of_list_byte.
  induction bs as [|b bs IH]; simpl; [done|]. by rewrite IH.
Qed.

(** X16.  [_compress] returns the base64 text of the compressed bytes and
    nothing else: slicing [str(...)] by [2:-1] removes exactly the [b'] and
    the closing quote, because base64 text needs no escape.  The length of
    the string is four characters for every three bytes or part of them,
    and base64-decoding the string gives back the compressed bytes. *)
Theorem compress_is_base64 (gzip_compress : list byte → list byte) (jsonString : string) :
  _compress gzip_compress jsonString
  = String.string_of_list_byte
      (Base64.b64encode (gzip_compress (String.list_byte_of_string jsonString))) ∧
  String.length (_compress gzip_compress jsonString)
  = 4 * ((length (gzip_compress (String.list_byte_of_string jsonString)) + 2) / 3) ∧
  Forall (λ c, Base64.b64char c = true)
    (String.list_byte_of_string (_compress gzip_compress jsonString)) ∧
  Base64.b64decode (String.list_byte_of_string (_compress gzip_compress jsonString))
  = Some (gzip_compress (String.list_byte_of_string jsonString)).
Proof.
  assert (_compress gzip_compress jsonString
          = String.string_of_list_byte
              (Base64.b64encode (gzip_compress (String.list_byte_of_string jsonString))))
    as Heq.
  { unfold _compress. apply slice_of_repr, b64encode_chars. }
  rewrite Heq. split; [done|].
  rewrite String.list_byte_of_string_of_list_byte, string_of_list_byte_length.
  split; [apply b64encode_length|]. split; [apply b64encode_chars|].
  apply b64decode_b64encode.
Qed.

(** ** Which calls raise *)

(** X17.  A method with variadic arguments raises exactly when the
    conversion of its arguments raises, with the exception of the
    conversion ([bracket] too, although it makes no use of its arguments),
    and when the conversion returns the method returns; the methods that
    take only a name, [else_] and [clear] never raise. *)
Theorem exec_raises_with_conversion (t : DFTemplate) (c : Call) :
  (∀ args, variadic_args c = Some args →
           (∀ e, exec t c = Raise e ↔ _convertDataTypes t args = Raise e) ∧
           (∀ values, _convertDataTypes t args = Ok values → ∃ t', exec t c = Ok t')) ∧
  (takes_no_values c = true → ∃ t', exec t c = Ok t').
Proof.
  split.
  - intros args Hargs.
    destruct c; simpl in Hargs; try done; injection Hargs as ->; simpl;
      unfold playerAction, gameAction, entityAction, ifPlayer, ifVariable, ifGame, ifEntity,
        repeat, bracket, control, selectObject, setVariable;
      destruct (_convertDataTypes t args) as [values|e']; simpl;
      (split; [intros e; split; intros H; try discriminate H; by injection H as ->
              | intros ? H; try discriminate H; by eexists]).
  - intros H. destruct c; simpl in H; try done; by eexists.
Qed.

Lemma exec_raises_with_conversion_witness :
  exec init (CBracket [RStr ""]) = Raise IndexError ∧
  ∃ t', exec init CElse = Ok t'.
Proof.
  destruct (exec_raises_with_conversion init (CBracket [RStr ""])) as [Hvariadic _].
  destruct (Hvariadic [RStr ""] eq_refl) as [Hraise _].
  split; [by apply Hraise|].
  apply (proj2 (exec_raises_with_conversion init CElse)). reflexivity.
Defined.
